(** * compose-dump: the command line entry point, [dump/cli/main.py]

    A shallow embedding of the option normaliser
    ([process_backup_options]), the compose context loader
    ([get_compose_context]) and the argument parser set-up
    ([parse_cli_args], [add_backup_parser], [add_restore_parser]).

    The options dictionary is a Python [dict] that the functions mutate in
    place; it is modelled as a [gmap string value] held in the program
    state, next to the records written to the [compose-dump] logger.
    Exceptions are explicit results.

    What the module imports is modelled as far as the module uses it:
    [pathlib] as [PurePosixPath], [argparse] as the way a namespace is
    built from declarations, [compose.config] and [directory_exists] as
    parameters. *)

From Stdlib Require Import ZArith Ascii String List.
From stdpp Require Import gmap strings list fin_maps.

Local Open Scope string_scope.
Local Open Scope Z_scope.

(** ** Python strings: the few [str] methods the module relies on *)

Module Str.

(** [s.rfind(c)]: the highest index of [c] in [s], or [-1]. *)
Fixpoint rfind_from (c : ascii) (s : string) (i last : Z) : Z :=
  match s with
  | EmptyString => last
  | String a s' => rfind_from c s' (i + 1) (if Ascii.eqb a c then i else last)
  end.

Definition rfind (c : ascii) (s : string) : Z := rfind_from c s 0 (-1).

(** [s[n:]] for [0 <= n]. *)
Fixpoint drop (n : nat) (s : string) : string :=
  match n, s with
  | O, _ => s
  | S _, EmptyString => EmptyString
  | S n', String _ s' => drop n' s'
  end.

Definition len (s : string) : Z := Z.of_nat (String.length s).

(** [s.split(sep)] with a one-character separator: never an empty list. *)
Fixpoint split (sep : ascii) (s : string) : list string :=
  match s with
  | EmptyString => [EmptyString]
  | String a s' =>
      if Ascii.eqb a sep then EmptyString :: split sep s'
      else match split sep s' with
           | [] => [String a EmptyString]
           | w :: ws => String a w :: ws
           end
  end.

(** [s.lstrip(c)]. *)
Fixpoint lstrip (c : ascii) (s : string) : string :=
  match s with
  | EmptyString => EmptyString
  | String a s' => if Ascii.eqb a c then lstrip c s' else s
  end.

(** [sep.join(l)]. *)
Fixpoint join (sep : string) (l : list string) : string :=
  match l with
  | [] => EmptyString
  | [x] => x
  | x :: xs => x ++ sep ++ join sep xs
  end.

(** Iterating a [str] yields its one-character substrings. *)
Fixpoint chars (s : string) : list string :=
  match s with
  | EmptyString => []
  | String a s' => String a EmptyString :: chars s'
  end.

End Str.

(** ** [pathlib.PurePosixPath], as far as the module uses it

    A path is kept the way pathlib keeps it: the root and the parsed
    components, with empty components and ["."] dropped on construction. *)

Module PurePath.

Record t := mk { root : string; parts : list string }.

#[global] Instance t_eq_dec : EqDecision t.
Proof. solve_decision. Defined.

Definition sep : ascii := "/"%char.

(** [_PosixFlavour.splitroot]: exactly two leading slashes are kept as
    the root ["//"], any other number collapses to ["/"]. *)
Definition splitroot (part : string) : string * string :=
  match part with
  | String a _ =>
      if Ascii.eqb a sep then
        let stripped := Str.lstrip sep part in
        if (Str.len part - Str.len stripped =? 2) then ("//", stripped)
        else ("/", stripped)
      else ("", part)
  | EmptyString => ("", part)
  end.

Definition keep_part (x : string) : bool :=
  negb (String.eqb x "") && negb (String.eqb x ".").

(** [PurePosixPath(s)] for one string argument. *)
Definition of_string (s : string) : t :=
  let '(r, rel) := splitroot s in
  mk r (List.filter keep_part (Str.split sep rel)).

(** [p.name]: the final component, [''] when there is none. *)
Definition name (p : t) : string := List.last (parts p) "".

(** [p.suffix]: from the last dot of the name on, unless that dot is the
    first or the last character of the name. *)
Definition suffix (p : t) : string :=
  let n := name p in
  let i := Str.rfind "."%char n in
  if (0 <? i) && (i <? Str.len n - 1) then Str.drop (Z.to_nat i) n else "".

(** [str(p)]. *)
Definition to_string (p : t) : string :=
  match root p ++ Str.join "/" (parts p) with
  | EmptyString => "."
  | s => s
  end.

End PurePath.

(** ** Values held by the options dictionary *)

Inductive value :=
| VNone
| VBool (b : bool)
| VStr (s : string)
| VPath (p : PurePath.t)
| VTuple (xs : list string)
| VList (xs : list string)
| VFunction (name : string).

#[global] Instance value_eq_dec : EqDecision value.
Proof. solve_decision. Defined.

(** Truth value testing: [None], [False], [''], [()] and [[]] are false;
    paths and functions define neither [__bool__] nor [__len__]. *)
Definition truthy (v : value) : bool :=
  match v with
  | VNone => false
  | VBool b => b
  | VStr s => negb (String.eqb s "")
  | VPath _ => true
  | VTuple xs | VList xs => negb (Nat.eqb (List.length xs) 0)
  | VFunction _ => true
  end.

(** ** Exceptions, results and the state monad of the module *)

Inductive exn :=
| KeyError (key : string)
| TypeError
| AttributeError (attr : string)
| SystemExit (code : Z)
| ConfigurationError (msg : string)
| OtherError (cls : string).

Inductive result (A : Type) :=
| Return (a : A)
| Raise (e : exn).
Arguments Return {A} a.
Arguments Raise {A} e.

Inductive level := DEBUG | INFO | WARNING | ERROR.

Definition log_record : Type := level * string.

(** The state a call can change: the options dictionary it was handed
    (one object, shared with the caller) and the records logged so far. *)
Record state := mkState {
  st_options : gmap string value;
  st_log : list log_record
}.

#[global] Instance exn_eq_dec : EqDecision exn.
Proof. solve_decision. Defined.

#[global] Instance level_eq_dec : EqDecision level.
Proof. solve_decision. Defined.

#[global] Instance result_eq_dec {A} `{EqDecision A} : EqDecision (result A).
Proof. solve_decision. Defined.

#[global] Instance state_eq_dec : EqDecision state.
Proof. solve_decision. Defined.

Definition M (A : Type) : Type := state -> result A * state.

Definition ret {A} (a : A) : M A := fun st => (Return a, st).

Definition raise {A} (e : exn) : M A := fun st => (Raise e, st).

Definition bind {A B} (m : M A) (k : A -> M B) : M B :=
  fun st =>
    match m st with
    | (Return a, st') => k a st'
    | (Raise e, st') => (Raise e, st')
    end.

Declare Scope py_scope.
Delimit Scope py_scope with py.
Notation "x <- m ;; k" := (bind m (fun x => k))
  (at level 100, m at next level, right associativity) : py_scope.
Notation "m ;;; k" := (bind m (fun _ => k))
  (at level 100, right associativity) : py_scope.
Local Open Scope py_scope.

Definition lift {A} (r : result A) : M A := fun st => (r, st).

(** [options[k]] *)
Definition getitem (k : string) : M value :=
  fun st =>
    match st_options st !! k with
    | Some v => (Return v, st)
    | None => (Raise (KeyError k), st)
    end.

(** [options[k] = v] *)
Definition setitem (k : string) (v : value) : M unit :=
  fun st => (Return tt, mkState (<[k := v]> (st_options st)) (st_log st)).

(** [del options[k]] *)
Definition delitem (k : string) : M unit :=
  fun st =>
    match st_options st !! k with
    | Some _ => (Return tt, mkState (delete k (st_options st)) (st_log st))
    | None => (Raise (KeyError k), st)
    end.

(** [log.error(msg)] *)
Definition log_error (msg : string) : M unit :=
  fun st => (Return tt, mkState (st_options st) (st_log st ++ [(ERROR, msg)])).

(** [for x in l: body(x)] *)
Fixpoint for_each {A} (l : list A) (body : A -> M unit) : M unit :=
  match l with
  | [] => ret tt
  | x :: l' => body x ;;; for_each l' body
  end.

(** [Path(v)]: a string is parsed, a path is taken as it is. *)
Definition Path (v : value) : result value :=
  match v with
  | VStr s => Return (VPath (PurePath.of_string s))
  | VPath p => Return (VPath p)
  | _ => Raise TypeError
  end.

(** [v.name] and [v.suffix] *)
Definition attr_name (v : value) : result value :=
  match v with
  | VPath p => Return (VStr (PurePath.name p))
  | _ => Raise (AttributeError "name")
  end.

Definition attr_suffix (v : value) : result string :=
  match v with
  | VPath p => Return (PurePath.suffix p)
  | _ => Raise (AttributeError "suffix")
  end.

(** [v += (x,)] *)
Definition iadd_tuple (v : value) (t : list string) : result value :=
  match v with
  | VTuple xs => Return (VTuple (xs ++ t))
  | VList xs => Return (VList (xs ++ t))
  | _ => Raise TypeError
  end.

(** [v is None] *)
Definition is_none (v : value) : bool :=
  match v with
  | VNone => true
  | _ => false
  end.

(** The dictionary the running call works on, as [return options] hands
    it back: the same object, not a copy. *)
Definition options_ref : M (gmap string value) :=
  fun st => (Return (st_options st), st).

(** ** Module constants *)

Definition COMPRESSIONS : list string := ["bz2"; "gz"; "tar"; "xz"].

Definition COMPRESSION_EXTENSIONS : list string :=
  List.map (fun x => "." ++ x) COMPRESSIONS.

Definition SCOPES : list string := ["config"; "mounted"; "volumes"].

(** ** The option normaliser *)

Section Normalizer.

(** [os.environ], read through [os.getenv]. *)
Variable environ : gmap string string.

(** [directory_exists] is imported from [dump.cli.utils].  It is called
    for its effect only: it either comes back or raises, and may log on
    the way; it is handed a path, not the options. *)
Variable directory_exists : value -> result unit * list log_record.

Definition getenv (k : string) : value :=
  match environ !! k with
  | Some s => VStr s
  | None => VNone
  end.

Definition call_directory_exists (v : value) : M unit :=
  fun st =>
    let '(r, recs) := directory_exists v in
    (r, mkState (st_options st) (st_log st ++ recs)).

(** Lines 98-101: [action] is dropped, [file] becomes [compose_files]. *)
Definition rename_block : M unit :=
  delitem "action" ;;;
  f <- getitem "file" ;;
  setitem "compose_files" f ;;;
  delitem "file".

(** Lines 103-107: the project directory and the project name.  The
    operands of [or] are evaluated from the left, up to the first true
    one; the last operand is the result when none is true. *)
Definition project_block : M unit :=
  d <- getitem "project_dir" ;;
  p <- lift (Path d) ;;
  setitem "project_dir" p ;;;
  d <- getitem "project_dir" ;;
  call_directory_exists d ;;;
  given <- getitem "project_name" ;;
  name <- (if truthy given then ret given
           else
             let env := getenv "COMPOSE_PROJECT_NAME" in
             if truthy env then ret env
             else d <- getitem "project_dir" ;; lift (attr_name d)) ;;
  setitem "project_name" name.

(** Lines 109-115. *)
Definition scope_step (scope : string) : M unit :=
  flag <- getitem scope ;;
  (if truthy flag then
     s <- getitem "scopes" ;;
     s' <- lift (iadd_tuple s [scope]) ;;
     setitem "scopes" s'
   else ret tt) ;;;
  delitem scope.

Definition scopes_block : M unit :=
  setitem "scopes" (VTuple []) ;;;
  for_each SCOPES scope_step ;;;
  s <- getitem "scopes" ;;
  if negb (truthy s) then setitem "scopes" (VTuple SCOPES) else ret tt.

(** Lines 117-123. *)
Definition target_block : M unit :=
  t <- getitem "target" ;;
  (if negb (is_none t) then
     p <- lift (Path t) ;;
     setitem "target" p ;;;
     c <- getitem "compression" ;;
     if is_none c then
       t <- getitem "target" ;;
       sfx <- lift (attr_suffix t) ;;
       if bool_decide (sfx ∈ COMPRESSION_EXTENSIONS) then
         t <- getitem "target" ;;
         sfx <- lift (attr_suffix t) ;;
         setitem "compression" (VStr (Str.drop 1 sfx))
       else ret tt
     else ret tt
   else
     c <- getitem "compression" ;;
     if is_none c then setitem "compression" (VStr "tar") else ret tt).

(** Lines 124-128. *)
Definition target_type_block : M unit :=
  c <- getitem "compression" ;;
  if truthy c then setitem "target_type" (VStr "archive")
  else
    t <- getitem "target" ;;
    call_directory_exists t ;;;
    setitem "target_type" (VStr "folder").

Definition process_backup_options : M (gmap string value) :=
  rename_block ;;;
  project_block ;;;
  scopes_block ;;;
  target_block ;;;
  target_type_block ;;;
  options_ref.

End Normalizer.

(** The value lines 105-107 compute from the given name and the parsed
    project directory. *)
Definition resolved_project_name (environ : gmap string string)
    (given : value) (dir : PurePath.t) : value :=
  if truthy given then given
  else match environ !! "COMPOSE_PROJECT_NAME" with
       | Some s => if String.eqb s "" then VStr (PurePath.name dir) else VStr s
       | None => VStr (PurePath.name dir)
       end.

(** The tuple lines 109-115 build from the truth values of the three
    flags. *)
Definition chosen_scopes (config mounted volumes : bool) : list string :=
  let picked : list string :=
    ((if config then ["config"] else []) ++
     (if mounted then ["mounted"] else []) ++
     (if volumes then ["volumes"] else []))%list in
  match picked with
  | [] => SCOPES
  | _ => picked
  end.

(** The target after lines 117-118, the compression after lines 119-123
    and the target type after lines 124-128. *)
Definition parsed_target (target : value) : result value :=
  if is_none target then Return target else Path target.

Definition final_compression (target compression : value) : value :=
  if is_none compression then
    match target with
    | VNone => VStr "tar"
    | VPath p =>
        if bool_decide (PurePath.suffix p ∈ COMPRESSION_EXTENSIONS)
        then VStr (Str.drop 1 (PurePath.suffix p))
        else compression
    | _ => compression
    end
  else compression.

Definition target_type_of (compression : value) : value :=
  VStr (if truthy compression then "archive" else "folder").

(** The dictionary a returning call leaves behind, from the entries it
    read: the assignments and deletions of lines 98-128 in their order. *)
Definition normalized (environ : gmap string string) (options : gmap string value)
    (file : value) (dir : PurePath.t) (given config mounted volumes : value)
    (target compression : value) : gmap string value :=
  <["target_type" := target_type_of (final_compression target compression)]>
    (<["compression" := final_compression target compression]>
       (<["target" := target]>
          (<["scopes" := VTuple (chosen_scopes (truthy config) (truthy mounted)
                                   (truthy volumes))]>
             (delete "volumes" (delete "mounted" (delete "config"
                (<["project_name" := resolved_project_name environ given dir]>
                   (<["project_dir" := VPath dir]>
                      (delete "file" (<["compose_files" := file]>
                         (delete "action" options))))))))))).

(** Whether the flag stored under [scope] is set. *)
Definition flag_set (options : gmap string value) (scope : string) : bool :=
  match options !! scope with
  | Some flag => truthy flag
  | None => false
  end.

(** ** The compose context loader *)

(** What [compose.config.load] hands back.  The loader gives every
    service dictionary its ['name'] entry, a string; nothing else of the
    configuration is read here. *)
Record ServiceDict := mkService { name : string }.

Record Config := mkConfig { services : list ServiceDict }.

(** The [compose.config] package: reading the [.env] file, locating the
    compose files, loading them.  Each call returns or raises. *)
Class ComposeConfig := {
  Environment : Type;
  ConfigDetails : Type;
  from_env_file : string -> result Environment;
  find : string -> value -> Environment -> result ConfigDetails;
  load : ConfigDetails -> result Config
}.

(** What the interpreter leaves open: the [repr] of containers and
    functions, and the order in which a [set] is iterated. *)
Class Interpreter := {
  repr : value -> string;
  set_iter : gset string -> list string;
  set_iter_perm : forall X, set_iter X ≡ₚ elements X
}.

(** [try: m except ...: handler] *)
Definition try_except {A} (m : M A) (handler : exn -> option (M A)) : M A :=
  fun st =>
    match m st with
    | (Return a, st') => (Return a, st')
    | (Raise e, st') =>
        match handler e with
        | Some h => h st'
        | None => (Raise e, st')
        end
    end.

(** [set(v)]: tuples, lists and strings can be iterated. *)
Definition py_set (v : value) : result (gset string) :=
  match v with
  | VTuple xs | VList xs => Return (list_to_set xs)
  | VStr s => Return (list_to_set (Str.chars s))
  | _ => Raise TypeError
  end.

Definition service_names (config : Config) : list string :=
  List.map name (services config).

Section Loader.

Context `{ComposeConfig} `{Interpreter}.

(** [str(v)] *)
Definition py_str (v : value) : string :=
  match v with
  | VNone => "None"
  | VBool true => "True"
  | VBool false => "False"
  | VStr s => s
  | VPath p => PurePath.to_string p
  | _ => repr v
  end.

Definition get_compose_context : M (Config * ConfigDetails * Environment) :=
  d <- getitem "project_dir" ;;
  let base_dir := py_str d in
  environment <- lift (from_env_file base_dir) ;;
  files <- getitem "compose_files" ;;
  config_details <- lift (find base_dir files environment) ;;
  config <- try_except (lift (load config_details))
              (fun e => match e with
                        | ConfigurationError msg =>
                            Some (log_error msg ;;; raise (SystemExit 1))
                        | _ => None
                        end) ;;
  given <- getitem "services" ;;
  wanted <- lift (py_set given) ;;
  let unknown_services : gset string :=
    wanted ∖ list_to_set (service_names config) in
  (if negb (bool_decide (unknown_services = ∅)) then
     log_error ("Unknown services: " ++ Str.join ", " (set_iter unknown_services)) ;;;
     raise (SystemExit 1)
   else ret tt) ;;;
  given <- getitem "services" ;;
  (if negb (truthy given) then
     setitem "services" (VTuple (service_names config))
   else ret tt) ;;;
  ret (config, config_details, environment).

End Loader.

(** ** The argument parser

    [argparse] is modelled as far as it builds a namespace: parsers are
    records of declared arguments and parser-level defaults, and a
    namespace is made of the defaults, then of the values stored by the
    arguments that matched, then of what the chosen sub-command adds.
    How argument strings are matched against the declarations
    (abbreviations, [nargs], [--]) is left to a [Matcher]. *)

Module Argparse.

Inductive Action := store | store_true | version | help.

Inductive Default :=
| SUPPRESS
| Value (v : value).

Record Argument := mkArgument {
  option_strings : list string;
  dest : string;
  action : Action;
  nargs : option string;
  default : Default;
  choices : option (list string)
}.

Record ArgumentParser := mkParser {
  actions : list Argument;
  defaults : list (string * value)
}.

(** [ArgumentParser(...)]: a new parser knows [-h], [--help]. *)
Definition new_parser : ArgumentParser :=
  mkParser [mkArgument ["-h"; "--help"] "help" help None SUPPRESS None] [].

Definition is_option (s : string) : bool :=
  match s with
  | String "-" _ => true
  | _ => false
  end.

Definition is_long (s : string) : bool :=
  match s with
  | String "-" (String "-" _) => true
  | _ => false
  end.

Fixpoint replace_char (a b : ascii) (s : string) : string :=
  match s with
  | EmptyString => EmptyString
  | String c s' => String (if Ascii.eqb c a then b else c) (replace_char a b s')
  end.

(** The attribute an argument is stored under: a positional keeps its
    name; an optional takes its first long option string, or else its
    first option string, without the leading dashes and with the other
    dashes turned into underscores. *)
Definition dest_of (names : list string) : string :=
  match names with
  | [n] => if is_option n then replace_char "-" "_" (Str.lstrip "-" n) else n
  | _ =>
      let chosen := match List.filter is_long names with
                    | l :: _ => l
                    | [] => List.hd "" names
                    end in
      replace_char "-" "_" (Str.lstrip "-" chosen)
  end.

Definition is_positional (names : list string) : bool :=
  match names with
  | [n] => negb (is_option n)
  | _ => false
  end.

(** [parser.add_argument] with its names, [action], [nargs], [default]
    and [choices]. *)
Definition add_argument (names : list string) (act : Action)
    (n : option string) (dflt : option value) (chs : option (list string))
    (parser : ArgumentParser) : ArgumentParser :=
  let d := match act with
           | version | help => SUPPRESS
           | store_true => Value (from_option id (VBool false) dflt)
           | store => Value (from_option id VNone dflt)
           end in
  let arg := mkArgument (if is_positional names then [] else names)
               (dest_of names) act n d chs in
  mkParser (actions parser ++ [arg]) (defaults parser).

(** [parser.set_defaults(k=v)]: recorded with the parser, and written
    over the default of every argument already declared for [k]. *)
Definition set_defaults (k : string) (v : value)
    (parser : ArgumentParser) : ArgumentParser :=
  mkParser
    (List.map (fun a =>
         if String.eqb (dest a) k
         then mkArgument (option_strings a) (dest a) (action a) (nargs a)
                (Value v) (choices a)
         else a) (actions parser))
    (List.filter (fun kv => negb (String.eqb (fst kv) k)) (defaults parser)
       ++ [(k, v)]).

(** The object [parser.add_subparsers()] returns: the parsers added
    to it, by command name. *)
Abbreviation Subparsers := (gmap string ArgumentParser).

Definition add_subparsers : Subparsers := ∅.

(** [subparsers.add_parser(name)] registers a new parser. *)
Definition add_parser (cmd : string) (subparsers : Subparsers) : Subparsers :=
  <[cmd := new_parser]> subparsers.

(** Later calls on the parser [add_parser] returned change the
    registered object. *)
Definition on_parser (cmd : string)
    (calls : list (ArgumentParser -> ArgumentParser))
    (subparsers : Subparsers) : Subparsers :=
  alter (fun parser => List.fold_left (fun p call => call p) calls parser)
    cmd subparsers.

Abbreviation Namespace := (gmap string value).

(** Which declared arguments the argument strings select, in the order
    their actions run, each with the position of the argument among
    the parser's [actions] and the converted value; for a parser with
    sub-commands, also the command and the strings left to it.
    [--help], [--version] and usage errors raise [SystemExit]. *)
Class Matcher := {
  match_arguments :
    list Argument -> bool -> list string ->
    result (list (nat * value) * option (string * list string))
}.

Definition setdefault (k : string) (v : value) (ns : Namespace) : Namespace :=
  match ns !! k with
  | Some _ => ns
  | None => <[k := v]> ns
  end.

(** "add any action defaults that aren't present", then "add any parser
    defaults that aren't present". *)
Definition add_defaults (parser : ArgumentParser) (ns : Namespace) : Namespace :=
  let ns :=
    List.fold_left (fun ns a =>
        match default a with
        | Value v => setdefault (dest a) v ns
        | SUPPRESS => ns
        end) (actions parser) ns in
  List.fold_left (fun ns kv => setdefault (fst kv) (snd kv) ns)
    (defaults parser) ns.

Definition run_action (parser : ArgumentParser) (ns : Namespace)
    (hit : nat * value) : Namespace :=
  match actions parser !! fst hit with
  | Some a =>
      match action a with
      | store | store_true => <[dest a := snd hit]> ns
      | version | help => ns
      end
  | None => ns
  end.

Section Parsing.

Context `{Matcher}.

(** A parser without sub-commands, filling the namespace it is
    given. *)
Definition parse_known_args (parser : ArgumentParser) (args : list string)
    (ns : Namespace) : result Namespace :=
  match match_arguments (actions parser) false args with
  | Raise e => Raise e
  | Return (hits, _) =>
      Return (List.fold_left (run_action parser) hits (add_defaults parser ns))
  end.

(** [parser.parse_args(args)] for a parser with sub-commands: an
    unknown command is a usage error, exit status 2; a known one
    parses the remaining strings into the same namespace. *)
Definition parse_args (parser : ArgumentParser) (subparsers : Subparsers)
    (args : list string) : result Namespace :=
  match match_arguments (actions parser) true args with
  | Raise e => Raise e
  | Return (hits, sub) =>
      let ns := List.fold_left (run_action parser) hits
                  (add_defaults parser ∅) in
      match sub with
      | None => Return ns
      | Some (cmd, rest) =>
          match subparsers !! cmd with
          | Some chosen => parse_known_args chosen rest ns
          | None => Raise (SystemExit 2)
          end
      end
  end.

End Parsing.

End Argparse.

Import Argparse.

Section Cli.

Context `{Matcher}.

(** [os.getcwd()], the default of [--project-dir]. *)
Variable getcwd : string.

Definition add_backup_parser (subparsers : Subparsers) : Subparsers :=
  let subparsers := add_parser "backup" subparsers in
  on_parser "backup"
    [ set_defaults "action" (VFunction "backup");
      add_argument ["--config"] store_true None (Some (VBool false)) None;
      add_argument ["-x"; "--compression"] store None None (Some COMPRESSIONS);
      add_argument ["-f"; "--file"] store (Some "*") None None;
      add_argument ["--mounted"] store_true None (Some (VBool false)) None;
      add_argument ["--no-pause"] store_true None (Some (VBool false)) None;
      add_argument ["--project-dir"] store None (Some (VStr getcwd)) None;
      add_argument ["-p"; "--project-name"] store None None None;
      add_argument ["--resolve-symlinks"] store_true None (Some (VBool false)) None;
      add_argument ["--target"; "-t"] store None None None;
      add_argument ["--verbose"] store_true None (Some (VBool false)) None;
      add_argument ["--volumes"] store_true None (Some (VBool false)) None;
      add_argument ["services"] store (Some "*") (Some (VTuple [])) None ]
    subparsers.

(** The body is [pass]. *)
Definition add_restore_parser (subparsers : Subparsers) : Subparsers :=
  subparsers.

Definition parse_cli_args (args : list string) : result Namespace :=
  let parser := new_parser in
  let parser := add_argument ["--version"] version None None None parser in
  let subparsers := add_subparsers in
  let subparsers := add_backup_parser subparsers in
  let subparsers := add_restore_parser subparsers in
  parse_args parser subparsers args.

End Cli.

(** ** The namespace of a [backup] command line, typed

    What the [backup] parser stores under each attribute: flags are
    booleans, [--compression] is one of its choices or [None], [--file]
    is a list or [None], the positional [services] is the list given or
    the default [()]. *)

Record BackupArgs := mkBackupArgs {
  arg_config : bool;
  arg_compression : option string;
  arg_file : option (list string);
  arg_mounted : bool;
  arg_no_pause : bool;
  arg_project_dir : string;
  arg_project_name : option string;
  arg_resolve_symlinks : bool;
  arg_target : option string;
  arg_verbose : bool;
  arg_volumes : bool;
  arg_services : list string
}.

Definition opt_str (o : option string) : value :=
  match o with
  | Some s => VStr s
  | None => VNone
  end.

(** [vars(args).copy()] *)
Definition vars (a : BackupArgs) : gmap string value :=
  list_to_map
    [ ("action", VFunction "backup");
      ("config", VBool (arg_config a));
      ("compression", opt_str (arg_compression a));
      ("file", match arg_file a with Some l => VList l | None => VNone end);
      ("mounted", VBool (arg_mounted a));
      ("no_pause", VBool (arg_no_pause a));
      ("project_dir", VStr (arg_project_dir a));
      ("project_name", opt_str (arg_project_name a));
      ("resolve_symlinks", VBool (arg_resolve_symlinks a));
      ("target", opt_str (arg_target a));
      ("verbose", VBool (arg_verbose a));
      ("volumes", VBool (arg_volumes a));
      ("services", match arg_services a with [] => VTuple [] | l => VList l end) ].

(** ** Sample collaborators and inputs *)

#[global] Instance Action_eq_dec : EqDecision Action.
Proof. solve_decision. Defined.

(** A matcher that knows exact flag names only: the first string of a
    parser with sub-commands is the command; for the command's parser
    every string has to be the name of a [store_true] argument. *)
Fixpoint flag_hits (args : list Argument) (strs : list string)
    : option (list (nat * value)) :=
  match strs with
  | [] => Some []
  | s :: strs' =>
      match list_find (fun a => bool_decide (s ∈ option_strings a)
                                && bool_decide (action a = store_true)) args,
            flag_hits args strs' with
      | Some (i, _), Some hits => Some ((i, VBool true) :: hits)
      | _, _ => None
      end
  end.

Definition exact_matcher : Matcher :=
  {| match_arguments args has_commands strs :=
       if has_commands then
         match strs with
         | [] => Return ([], None)
         | cmd :: rest =>
             if is_option cmd then Raise (SystemExit 2)
             else Return ([], Some (cmd, rest))
         end
       else
         match flag_hits args strs with
         | Some hits => Return (hits, None)
         | None => Raise (SystemExit 2)
         end |}.

(** A compose library whose [load] has a fixed result. *)
Definition fixed_compose (loaded : result Config) : ComposeConfig :=
  {| Environment := unit;
     ConfigDetails := value;
     from_env_file _ := Return tt;
     find _ files _ := Return files;
     load _ := loaded |}.

Definition sample_interpreter : Interpreter :=
  {| repr _ := "<object>";
     set_iter X := elements X;
     set_iter_perm X := reflexivity (elements X) |}.

(** Every directory asked for exists. *)
Definition all_exist (v : value) : result unit * list log_record :=
  (Return tt, []).

(** No directory exists: the helper logs and exits. *)
Definition none_exists (v : value) : result unit * list log_record :=
  (Raise (SystemExit 1), [(ERROR, "no such directory")]).

Definition sample_args : BackupArgs :=
  {| arg_config := true;
     arg_compression := None;
     arg_file := None;
     arg_mounted := false;
     arg_no_pause := false;
     arg_project_dir := "/srv/app/";
     arg_project_name := None;
     arg_resolve_symlinks := false;
     arg_target := Some "/backups/app.tar.gz";
     arg_verbose := false;
     arg_volumes := true;
     arg_services := [] |}.

Definition sample_state : state := mkState (vars sample_args) [].

(** What the normaliser returns for [sample_state] when no environment
    variable is set. *)
Definition sample_out : gmap string value :=
  list_to_map
    [ ("compose_files", VNone);
      ("compression", VStr "gz");
      ("no_pause", VBool false);
      ("project_dir", VPath (PurePath.mk "/" ["srv"; "app"]));
      ("project_name", VStr "app");
      ("resolve_symlinks", VBool false);
      ("scopes", VTuple ["config"; "volumes"]);
      ("services", VTuple []);
      ("target", VPath (PurePath.mk "/" ["backups"; "app.tar.gz"]));
      ("target_type", VStr "archive");
      ("verbose", VBool false) ].

(** [compose-dump backup]: nothing but the command. *)
Definition bare_args : BackupArgs :=
  {| arg_config := false;
     arg_compression := None;
     arg_file := None;
     arg_mounted := false;
     arg_no_pause := false;
     arg_project_dir := "/srv/app";
     arg_project_name := None;
     arg_resolve_symlinks := false;
     arg_target := None;
     arg_verbose := false;
     arg_volumes := false;
     arg_services := [] |}.

Definition bare_out : gmap string value :=
  list_to_map
    [ ("compose_files", VNone);
      ("compression", VStr "tar");
      ("no_pause", VBool false);
      ("project_dir", VPath (PurePath.mk "/" ["srv"; "app"]));
      ("project_name", VStr "app");
      ("resolve_symlinks", VBool false);
      ("scopes", VTuple ["config"; "mounted"; "volumes"]);
      ("services", VTuple []);
      ("target", VNone);
      ("target_type", VStr "archive");
      ("verbose", VBool false) ].

(** [compose-dump backup -x xz -t /backups/app.tar.gz -p ''] with
    [COMPOSE_PROJECT_NAME=stack]. *)
Definition named_args : BackupArgs :=
  {| arg_config := false;
     arg_compression := Some "xz";
     arg_file := None;
     arg_mounted := false;
     arg_no_pause := false;
     arg_project_dir := "/srv/app";
     arg_project_name := Some "";
     arg_resolve_symlinks := false;
     arg_target := Some "/backups/app.tar.gz";
     arg_verbose := false;
     arg_volumes := false;
     arg_services := [] |}.

(** The normalised options of [sample_state] with a [services] entry. *)
Definition loader_state (asked : value) : state :=
  mkState (<["services" := asked]> sample_out) [].

Definition stack_environ : gmap string string :=
  {[ "COMPOSE_PROJECT_NAME" := "stack" ]}.

Definition named_out : gmap string value :=
  list_to_map
    [ ("compose_files", VNone);
      ("compression", VStr "xz");
      ("no_pause", VBool false);
      ("project_dir", VPath (PurePath.mk "/" ["srv"; "app"]));
      ("project_name", VStr "stack");
      ("resolve_symlinks", VBool false);
      ("scopes", VTuple ["config"; "mounted"; "volumes"]);
      ("services", VTuple []);
      ("target", VPath (PurePath.mk "/" ["backups"; "app.tar.gz"]));
      ("target_type", VStr "archive");
      ("verbose", VBool false) ].

Definition sample_config : Config :=
  mkConfig [mkService "web"; mkService "db"].

(** ** The dump invoker and the entry point *)

(** [log.debug(msg)] *)
Definition log_debug (msg : string) : M unit :=
  fun st => (Return tt, mkState (st_options st) (st_log st ++ [(DEBUG, msg)])).

(** [options = vars(args).copy()]: a new dictionary, from here on the
    one the call works on. *)
Definition copy_vars (args : Namespace) : M unit :=
  fun st => (Return tt, mkState args (st_log st)).

(** [args.attr] *)
Definition getattr (args : Namespace) (attr : string) : result value :=
  match args !! attr with
  | Some v => Return v
  | None => Raise (AttributeError attr)
  end.

Section Invoker.

Context `{ComposeConfig} `{Interpreter} `{Matcher}.

Variable environ : gmap string string.
Variable directory_exists : value -> result unit * list log_record.
Variable getcwd : string.

(** The context [backup] hands over, but for its [options]: those are
    the dictionary of the state, shared with the callee. *)
Record DumpContext := mkContext {
  ctx_manifest : list (string * value);
  ctx_config : Config;
  ctx_config_details : ConfigDetails;
  ctx_environment : Environment
}.

(** [dump.backup.create_dump], [dump.utils.setup_loghandler] (its handler
    argument is the module's console handler), [str] of a dictionary, and
    a call of a function value other than [backup]. *)
Variable create_dump : DumpContext -> M unit.
Variable setup_loghandler : value -> M unit.
Variable dict_str : gmap string value -> string.
Variable call_other : string -> Namespace -> M unit.

Definition backup (args : Namespace) : M unit :=
  copy_vars args ;;;
  options <- process_backup_options environ directory_exists ;;
  loaded <- get_compose_context ;;
  let '(config, config_details, environment) := loaded in
  options <- options_ref ;;
  log_debug ("Invoking project dump with these settings: " ++ dict_str options) ;;;
  create_dump (mkContext [] config config_details environment).

(** [args.action(args)] *)
Definition call_action (action : value) (args : Namespace) : M unit :=
  match action with
  | VFunction f => if String.eqb f "backup" then backup args else call_other f args
  | _ => raise TypeError
  end.

(** [main], with [sys.argv[1:]] as its argument. *)
Definition main (argv : list string) : M unit :=
  args <- lift (parse_cli_args getcwd argv) ;;
  verbose <- lift (getattr args "verbose") ;;
  setup_loghandler verbose ;;;
  action <- lift (getattr args "action") ;;
  call_action action args.

End Invoker.

(** A [create_dump] that notes in the log that it ran, and nothing else. *)
Definition noting_dump `{ComposeConfig} (ctx : DumpContext) : M unit :=
  log_debug "create_dump ran".

(** [compose-dump backup --mounted --no-pause --verbose -f
    docker-compose.yml -p shop -t /backups/shop web]: a folder target. *)
Definition folder_args : BackupArgs :=
  {| arg_config := false;
     arg_compression := None;
     arg_file := Some ["docker-compose.yml"];
     arg_mounted := true;
     arg_no_pause := true;
     arg_project_dir := "/srv/app";
     arg_project_name := Some "shop";
     arg_resolve_symlinks := false;
     arg_target := Some "/backups/shop";
     arg_verbose := true;
     arg_volumes := false;
     arg_services := ["web"] |}.

Definition folder_out : gmap string value :=
  list_to_map
    [ ("compose_files", VList ["docker-compose.yml"]);
      ("compression", VNone);
      ("no_pause", VBool true);
      ("project_dir", VPath (PurePath.mk "/" ["srv"; "app"]));
      ("project_name", VStr "shop");
      ("resolve_symlinks", VBool false);
      ("scopes", VTuple ["mounted"]);
      ("services", VList ["web"]);
      ("target", VPath (PurePath.mk "/" ["backups"; "shop"]));
      ("target_type", VStr "folder");
      ("verbose", VBool true) ].

(** [directory_exists] when only [/srv/app] is there. *)
Definition only_project_dir (v : value) : result unit * list log_record :=
  if bool_decide (v = VPath (PurePath.mk "/" ["srv"; "app"]))
  then (Return tt, [])
  else (Raise (SystemExit 1), [(ERROR, "no such directory")]).

(** A target that is named like a hidden file. *)
Definition dot_args : BackupArgs :=
  {| arg_config := false;
     arg_compression := None;
     arg_file := None;
     arg_mounted := false;
     arg_no_pause := false;
     arg_project_dir := "/srv/app";
     arg_project_name := None;
     arg_resolve_symlinks := false;
     arg_target := Some "/backups/.gz";
     arg_verbose := false;
     arg_volumes := false;
     arg_services := [] |}.

Definition dot_out : gmap string value :=
  list_to_map
    [ ("compose_files", VNone);
      ("compression", VNone);
      ("no_pause", VBool false);
      ("project_dir", VPath (PurePath.mk "/" ["srv"; "app"]));
      ("project_name", VStr "app");
      ("resolve_symlinks", VBool false);
      ("scopes", VTuple ["config"; "mounted"; "volumes"]);
      ("services", VTuple []);
      ("target", VPath (PurePath.mk "/" ["backups"; ".gz"]));
      ("target_type", VStr "folder");
      ("verbose", VBool false) ].

(** [sample_args] with two services asked for, one of them unknown to
    [sample_config]. *)
Definition cache_args : BackupArgs :=
  {| arg_config := true;
     arg_compression := None;
     arg_file := None;
     arg_mounted := false;
     arg_no_pause := false;
     arg_project_dir := "/srv/app/";
     arg_project_name := None;
     arg_resolve_symlinks := false;
     arg_target := Some "/backups/app.tar.gz";
     arg_verbose := false;
     arg_volumes := true;
     arg_services := ["web"; "cache"] |}.

Definition cache_out : gmap string value :=
  <["services" := VList ["web"; "cache"]]> sample_out.

(** A compose library that finds no compose file. *)
Definition lost_compose : ComposeConfig :=
  {| Environment := unit;
     ConfigDetails := value;
     from_env_file _ := Return tt;
     find _ _ _ := Raise (ConfigurationError "no compose file");
     load _ := Return sample_config |}.

(** A [str] for dictionaries that tells their size only. *)
Definition size_str (options : gmap string value) : string :=
  if bool_decide (size options = 11%nat) then "<11 entries>" else "<dict>".

(** ** Running the monad: one lemma per primitive *)

Section MonadFacts.

Context {A B : Type}.

Lemma bind_Return (m : M A) (k : A -> M B) st b st' :
  bind m k st = (Return b, st') ->
  exists a st1, m st = (Return a, st1) /\ k a st1 = (Return b, st').
Proof.
  unfold bind. destruct (m st) as [[a|e] st1]; [eauto | discriminate].
Qed.

Lemma bind_run (m : M A) (k : A -> M B) st a st1 :
  m st = (Return a, st1) -> bind m k st = k a st1.
Proof. unfold bind. now intros ->. Qed.

Lemma bind_raise (m : M A) (k : A -> M B) st e st1 :
  m st = (Raise e, st1) -> bind m k st = (Raise e, st1).
Proof. unfold bind. now intros ->. Qed.

Lemma lift_Return (r : result A) st a st' :
  lift r st = (Return a, st') -> r = Return a /\ st' = st.
Proof. unfold lift. intros [= -> ->]. auto. Qed.

Lemma ret_Return (x : A) st a st' :
  ret x st = (Return a, st') -> a = x /\ st' = st.
Proof. unfold ret. intros [= -> ->]. auto. Qed.

End MonadFacts.

Lemma bind_assoc {A B C} (m : M A) (k : A -> M B) (k' : B -> M C) st :
  bind (bind m k) k' st = bind m (fun a => bind (k a) k') st.
Proof. unfold bind. destruct (m st) as [[a|e] st1]; reflexivity. Qed.

Lemma getitem_Return k st v st' :
  getitem k st = (Return v, st') -> st_options st !! k = Some v /\ st' = st.
Proof.
  unfold getitem. destruct (st_options st !! k); intros [= <- <-]; auto.
Qed.

Lemma getitem_run k st v :
  st_options st !! k = Some v -> getitem k st = (Return v, st).
Proof. unfold getitem. now intros ->. Qed.

Lemma setitem_Return k v st u st' :
  setitem k v st = (Return u, st') ->
  st' = mkState (<[k := v]> (st_options st)) (st_log st).
Proof. unfold setitem. now intros [= <-]. Qed.

Lemma delitem_Return k st u st' :
  delitem k st = (Return u, st') ->
  is_Some (st_options st !! k) /\
  st' = mkState (delete k (st_options st)) (st_log st).
Proof.
  unfold delitem. destruct (st_options st !! k) eqn:E; intros [= <-]; eauto.
Qed.

Lemma delitem_run k st v :
  st_options st !! k = Some v ->
  delitem k st = (Return tt, mkState (delete k (st_options st)) (st_log st)).
Proof. unfold delitem. now intros ->. Qed.

Lemma Path_Return v w :
  Path v = Return w -> exists p, w = VPath p.
Proof. destruct v; intros [= <-]; eauto. Qed.

(** Taking a run that returned apart, primitive by primitive. *)
Ltac run_inv :=
  repeat match goal with
    | H : bind _ _ _ = (Return _, _) |- _ =>
        apply bind_Return in H; destruct H as (? & ? & ? & H)
    | H : getitem _ _ = (Return _, _) |- _ =>
        apply getitem_Return in H; destruct H as [H ->]
    | H : setitem _ _ _ = (Return _, _) |- _ =>
        apply setitem_Return in H; subst
    | H : delitem _ _ = (Return _, _) |- _ =>
        apply delitem_Return in H; destruct H as [H ->]
    | H : lift _ _ = (Return _, _) |- _ =>
        apply lift_Return in H; destruct H as [H ->]
    | H : ret _ _ = (Return _, _) |- _ =>
        apply ret_Return in H; destruct H as [-> ->]
    | H : options_ref _ = (Return _, _) |- _ =>
        unfold options_ref in H; injection H as <- <-
    end;
  cbn [st_options st_log] in *.

(** Looking a constant key up in a dictionary built by assignments and
    deletions of constant keys. *)
Ltac lookup_keys :=
  cbn [st_options st_log] in *;
  repeat first
    [ rewrite lookup_insert_eq
    | rewrite lookup_delete_eq
    | rewrite lookup_insert_ne by discriminate
    | rewrite lookup_delete_ne by discriminate ].

Ltac lookup_keys_in H :=
  cbn [st_options st_log] in H;
  repeat first
    [ rewrite lookup_insert_eq in H
    | rewrite lookup_delete_eq in H
    | rewrite lookup_insert_ne in H by discriminate
    | rewrite lookup_delete_ne in H by discriminate ].

(** Running a block forward, primitive by primitive. *)
Ltac run_prim :=
  lazymatch goal with
  | |- getitem _ _ = _ =>
      apply getitem_run; lookup_keys; first [eassumption | reflexivity]
  | |- delitem _ _ = _ =>
      eapply delitem_run; lookup_keys; first [eassumption | reflexivity]
  | |- setitem _ _ _ = _ => unfold setitem; reflexivity
  | |- ret _ _ = _ => unfold ret; reflexivity
  | |- lift _ _ = _ =>
      unfold lift;
      first [reflexivity | match goal with E : _ = Return _ |- _ => rewrite E; reflexivity end]
  end.

Ltac run_fwd :=
  repeat first
    [ rewrite bind_assoc
    | erewrite bind_run by run_prim; cbv beta; cbn [st_options st_log] ].

Ltac run_last :=
  etransitivity; [run_prim | cbn [st_options st_log]; try reflexivity].

Section NormalizerFacts.

Variable environ : gmap string string.
Variable directory_exists : value -> result unit * list log_record.

Lemma call_directory_exists_Return v st u st' :
  call_directory_exists directory_exists v st = (Return u, st') ->
  (directory_exists v).1 = Return tt /\ st_options st' = st_options st.
Proof.
  unfold call_directory_exists. destruct (directory_exists v) as [r recs].
  destruct u. intros [= -> <-]. auto.
Qed.

Lemma rename_block_Return st u st' :
  rename_block st = (Return u, st') ->
  exists f,
    st_options st !! "file" = Some f /\
    st_options st' =
      delete "file" (<["compose_files" := f]> (delete "action" (st_options st))).
Proof.
  unfold rename_block. intros Hrun. run_inv. lookup_keys.
  match goal with Hf : _ !! "file" = Some _ |- _ => lookup_keys_in Hf end.
  eauto.
Qed.

Lemma project_block_Return st u st' :
  project_block environ directory_exists st = (Return u, st') ->
  exists d p given,
    st_options st !! "project_dir" = Some d /\
    Path d = Return (VPath p) /\
    (directory_exists (VPath p)).1 = Return tt /\
    st_options st !! "project_name" = Some given /\
    st_options st' =
      <["project_name" := resolved_project_name environ given p]>
        (<["project_dir" := VPath p]> (st_options st)).
Proof.
  unfold project_block. intros Hrun. run_inv.
  match goal with Hp : Path _ = Return _ |- _ =>
    destruct (Path_Return _ _ Hp) as [p ->] end.
  match goal with Hd : _ !! "project_dir" = Some ?y, Hc : call_directory_exists _ ?y _ = _ |- _ =>
    lookup_keys_in Hd; injection Hd as <-;
    apply call_directory_exists_Return in Hc as [Hde Hopt]; cbn [st_options] in Hopt end.
  match goal with Hn : _ !! "project_name" = Some _ |- _ =>
    rewrite Hopt in Hn; lookup_keys_in Hn end.
  eexists _, p, _. repeat split; eauto.
  unfold resolved_project_name, getenv in *.
  match goal with Hr : (if truthy ?g then _ else _) _ = _ |- _ =>
    destruct (truthy g);
    [| destruct (environ !! "COMPOSE_PROJECT_NAME") as [s|]; cbn [truthy] in Hr;
       [destruct (String.eqb s ""); cbn [negb] in Hr |] ];
    run_inv; rewrite ?Hopt in * end.
  all: try reflexivity.
  all: match goal with Hd : _ !! "project_dir" = Some _, Ha : attr_name _ = _ |- _ =>
         lookup_keys_in Hd; injection Hd as <-; cbn in Ha; injection Ha as <- end.
  all: reflexivity.
Qed.

Lemma scope_step_Return scope xs st u st' :
  scope <> "scopes" ->
  st_options st !! "scopes" = Some (VTuple xs) ->
  scope_step scope st = (Return u, st') ->
  exists flag,
    st_options st !! scope = Some flag /\
    st_options st' =
      delete scope
        (<["scopes" := VTuple (xs ++ if truthy flag then [scope] else [])]>
           (st_options st)).
Proof.
  unfold scope_step. intros Hne Hs Hrun. run_inv.
  match goal with Hf : _ !! scope = Some ?f |- _ =>
    exists f; split; [exact Hf |]; destruct (truthy f) end; run_inv.
  - match goal with Hg : _ !! "scopes" = Some _, Hi : iadd_tuple _ _ = _ |- _ =>
      rewrite Hs in Hg; injection Hg as <-; cbn in Hi; injection Hi as <- end.
    reflexivity.
  - rewrite app_nil_r, insert_id by exact Hs. reflexivity.
Qed.

(** The scopes picked by the three flags, in the order of [SCOPES]. *)
Lemma scopes_block_Return st u st' :
  scopes_block st = (Return u, st') ->
  exists c m v,
    st_options st !! "config" = Some c /\
    st_options st !! "mounted" = Some m /\
    st_options st !! "volumes" = Some v /\
    st_options st' =
      <["scopes" := VTuple (chosen_scopes (truthy c) (truthy m) (truthy v))]>
        (delete "volumes" (delete "mounted" (delete "config" (st_options st)))).
Proof.
  unfold scopes_block, SCOPES, for_each. intros Hrun. run_inv.
  do 3 match goal with
    | Hs : scope_step _ ?s = (Return _, _) |- _ =>
        eapply scope_step_Return in Hs as (? & ? & ?);
        [| discriminate
         | repeat match goal with E : st_options s = _ |- _ => rewrite E end;
           lookup_keys; reflexivity ]
    end.
  repeat match goal with
    | E : st_options ?s = _, Hl : context [st_options ?s] |- _ =>
        rewrite E in Hl
    end.
  repeat match goal with
    | Hl : _ !! _ = Some _ |- _ => progress lookup_keys_in Hl
    end.
  match goal with
  | Hc : _ !! "config" = Some ?c, Hm : _ !! "mounted" = Some ?m,
    Hv : _ !! "volumes" = Some ?v |- _ =>
      exists c, m, v; repeat split; try assumption;
      destruct (truthy c), (truthy m), (truthy v)
  end.
  all: match goal with Hs : Some (VTuple _) = Some _ |- _ =>
         injection Hs as <- end.
  all: cbn [truthy negb app length Nat.eqb] in Hrun; run_inv.
  all: match goal with E : st_options ?s = _ |- context [st_options ?s] =>
         rewrite E end.
  all: apply map_eq; intros k; unfold chosen_scopes, SCOPES; cbn [app].
  all: repeat first [rewrite lookup_insert | rewrite lookup_delete];
       repeat case_decide; subst; congruence.
Qed.

Lemma target_block_Return st u st' :
  target_block st = (Return u, st') ->
  exists t c t',
    st_options st !! "target" = Some t /\
    st_options st !! "compression" = Some c /\
    parsed_target t = Return t' /\
    st_options st' =
      <["compression" := final_compression t' c]>
        (<["target" := t']> (st_options st)).
Proof.
  unfold target_block. intros Hrun. run_inv.
  match goal with Ht : _ !! "target" = Some ?t |- _ =>
    rename t into target; exists target; unfold parsed_target;
    destruct (is_none target) eqn:Et end;
    cbn [negb] in *; run_inv.
  - match goal with Hc : _ !! "compression" = Some ?c |- _ =>
      exists c, target; repeat split; auto;
      destruct target; try discriminate; unfold final_compression;
      destruct (is_none c) eqn:Ec; run_inv
    end.
    all: apply map_eq; intros k;
      repeat first [rewrite lookup_insert | rewrite lookup_delete];
      repeat case_decide; subst; congruence.
  - match goal with Hp : Path target = Return ?w |- _ =>
      destruct (Path_Return _ _ Hp) as [p ->] end.
    match goal with Hc : _ !! "compression" = Some ?c |- _ =>
      lookup_keys_in Hc; exists c, (VPath p); repeat split; auto;
      unfold final_compression; destruct (is_none c) eqn:Ec; run_inv
    end; [| symmetry; apply insert_id; now lookup_keys].
    repeat match goal with
      | Hl : _ !! "target" = Some _ |- _ =>
          progress lookup_keys_in Hl; injection Hl as <-
      | Ha : attr_suffix (VPath _) = Return _ |- _ =>
          cbn in Ha; injection Ha as <-
      end.
    match goal with
    | Hi : (if bool_decide ?P then _ else _) _ = _ |- _ =>
        destruct (bool_decide P); run_inv
    end.
    + repeat match goal with
      | Hl : _ !! "target" = Some _ |- _ =>
          progress lookup_keys_in Hl; injection Hl as <-
      | Ha : attr_suffix (VPath _) = Return _ |- _ =>
          cbn in Ha; injection Ha as <-
      end.
      reflexivity.
    + symmetry. apply insert_id. now lookup_keys.
Qed.

Lemma target_type_block_Return st u st' :
  target_type_block directory_exists st = (Return u, st') ->
  exists c,
    st_options st !! "compression" = Some c /\
    (truthy c = false ->
     exists t, st_options st !! "target" = Some t /\
               (directory_exists t).1 = Return tt) /\
    st_options st' = <["target_type" := target_type_of c]> (st_options st).
Proof.
  unfold target_type_block, target_type_of. intros Hrun. run_inv.
  match goal with Hc : _ !! "compression" = Some ?c |- _ =>
    exists c; split; [exact Hc |]; destruct (truthy c); run_inv end.
  - split; [discriminate | reflexivity].
  - match goal with Hd : call_directory_exists _ _ _ = _ |- _ =>
      apply call_directory_exists_Return in Hd as [Hde Hopt] end.
    rewrite Hopt. eauto.
Qed.

(** Every returning run read the same nine entries and left the same
    dictionary behind. *)
Lemma process_backup_options_Return st out st' :
  process_backup_options environ directory_exists st = (Return out, st') ->
  out = st_options st' /\
  exists f d p given c m v t cmp t',
    st_options st !! "file" = Some f /\
    st_options st !! "project_dir" = Some d /\
    Path d = Return (VPath p) /\
    st_options st !! "project_name" = Some given /\
    st_options st !! "config" = Some c /\
    st_options st !! "mounted" = Some m /\
    st_options st !! "volumes" = Some v /\
    st_options st !! "target" = Some t /\
    st_options st !! "compression" = Some cmp /\
    parsed_target t = Return t' /\
    (truthy (final_compression t' cmp) = false ->
     (directory_exists t').1 = Return tt) /\
    out = normalized environ (st_options st) f p given c m v t' cmp.
Proof.
  unfold process_backup_options. intros Hrun. run_inv.
  split; [reflexivity |].
  match goal with Hb : rename_block _ = _ |- _ =>
    apply rename_block_Return in Hb as (f & Hf & E1) end.
  match goal with Hb : project_block _ _ _ = _ |- _ =>
    apply project_block_Return in Hb as (d & p & given & Hd & Hp & _ & Hg & E2) end.
  match goal with Hb : scopes_block _ = _ |- _ =>
    apply scopes_block_Return in Hb as (c & m & v & Hc & Hm & Hv & E3) end.
  match goal with Hb : target_block _ = _ |- _ =>
    apply target_block_Return in Hb as (t & cmp & t' & Ht & Hcmp & Hpt & E4) end.
  match goal with Hb : target_type_block _ _ = _ |- _ =>
    apply target_type_block_Return in Hb as (c' & Hc' & Hdir & E5) end.
  rewrite E4 in Hc', Hdir. lookup_keys_in Hc'. injection Hc' as <-.
  unfold normalized. rewrite E5, E4, E3, E2, E1.
  rewrite E3, E2, E1 in Ht, Hcmp. rewrite E2, E1 in Hc, Hm, Hv.
  rewrite E1 in Hd, Hg.
  lookup_keys_in Ht. lookup_keys_in Hcmp. lookup_keys_in Hc.
  lookup_keys_in Hm. lookup_keys_in Hv. lookup_keys_in Hd. lookup_keys_in Hg.
  exists f, d, p, given, c, m, v, t, cmp, t'.
  repeat split; try assumption.
  intros Hfalse. destruct (Hdir Hfalse) as (t0 & Ht0 & Hok).
  lookup_keys_in Ht0. now injection Ht0 as <-.
Qed.

(** *** The other direction: when the entries are there, the run returns *)

Lemma rename_block_run st a f :
  st_options st !! "action" = Some a ->
  st_options st !! "file" = Some f ->
  rename_block st =
    (Return tt,
     mkState
       (delete "file" (<["compose_files" := f]> (delete "action" (st_options st))))
       (st_log st)).
Proof.
  intros Ha Hf. unfold rename_block. run_fwd. run_last.
Qed.







End NormalizerFacts.

(** Closed equations between runs are settled by evaluating both sides. *)
Ltac by_evaluation :=
  match goal with
  | |- ?P => apply (bool_decide_eq_true_1 P); vm_compute; reflexivity
  end.

Lemma sample_run :
  process_backup_options ∅ all_exist sample_state
  = (Return sample_out, mkState sample_out []).
Proof. by_evaluation. Qed.

Lemma bare_run :
  process_backup_options ∅ all_exist (mkState (vars bare_args) [])
  = (Return bare_out, mkState bare_out []).
Proof. by_evaluation. Qed.


Lemma named_run :
  process_backup_options stack_environ all_exist (mkState (vars named_args) [])
  = (Return named_out, mkState named_out []).
Proof. by_evaluation. Qed.

(** ** The option normaliser: what a returning call leaves in [options] *)

Section NormalizerClaims.

Variable environ : gmap string string.
Variable directory_exists : value -> result unit * list log_record.

(** C1.  When none of the flags [config], [mounted], [volumes] is set,
    [options['scopes']] is the full tuple [SCOPES]; otherwise it is the
    tuple of the scope names whose flag is set, in the order of
    [SCOPES]. *)
Theorem scopes_from_flags st out st' :
  process_backup_options environ directory_exists st = (Return out, st') ->
  let set := flag_set (st_options st) in
  out !! "scopes" =
    Some (VTuple (if set "config" || set "mounted" || set "volumes"
                  then List.filter set SCOPES
                  else ["config"; "mounted"; "volumes"])).
Proof.
  intros Hrun set.
  apply process_backup_options_Return in Hrun
    as (_ & f & d & p & given & c & m & v & t & cmp & t' &
        _ & _ & _ & _ & Hc & Hm & Hv & _ & _ & _ & _ & ->).
  unfold normalized. lookup_keys.
  subst set. unfold SCOPES, flag_set. cbn [List.filter].
  rewrite Hc, Hm, Hv.
  destruct (truthy c), (truthy m), (truthy v); reflexivity.
Qed.

(** C2.  When a target is given (it parses to the path [p]), no
    compression is given and the suffix of the target is one of
    [.bz2], [.gz], [.tar], [.xz], then [options['compression']] is
    that suffix without its leading dot. *)
Theorem compression_from_suffix st out st' t p :
  process_backup_options environ directory_exists st = (Return out, st') ->
  st_options st !! "target" = Some t ->
  Path t = Return (VPath p) ->
  st_options st !! "compression" = Some VNone ->
  PurePath.suffix p ∈ [".bz2"; ".gz"; ".tar"; ".xz"] ->
  out !! "compression" = Some (VStr (Str.drop 1 (PurePath.suffix p))) /\
  PurePath.suffix p = "." ++ Str.drop 1 (PurePath.suffix p).
Proof.
  intros Hrun Ht Hp Hcmp Hsfx.
  apply process_backup_options_Return in Hrun
    as (_ & f & d & p' & given & c & m & v & t0 & cmp & t' &
        _ & _ & _ & _ & _ & _ & _ & Ht0 & Hcmp0 & Hpt & _ & ->).
  rewrite Ht in Ht0. injection Ht0 as <-.
  rewrite Hcmp in Hcmp0. injection Hcmp0 as <-.
  unfold parsed_target in Hpt.
  assert (Hnn : is_none t = false) by (destruct t; try reflexivity; discriminate).
  rewrite Hnn, Hp in Hpt. injection Hpt as <-.
  unfold normalized. lookup_keys. cbn [final_compression is_none].
  change COMPRESSION_EXTENSIONS with [".bz2"; ".gz"; ".tar"; ".xz"].
  rewrite bool_decide_eq_true_2 by exact Hsfx.
  split; [reflexivity |].
  repeat (apply elem_of_cons in Hsfx as [-> | Hsfx]; [reflexivity |]).
  now apply elem_of_nil in Hsfx.
Qed.

(** C3.  When neither a target nor a compression is given the
    compression is ['tar'].  In every case [options['target_type']] is
    ['archive'] when the final compression is true (set, non-empty) and
    ['folder'] when it is not; in the second case the target passed the
    directory check. *)
Theorem target_type_from_compression st out st' :
  process_backup_options environ directory_exists st = (Return out, st') ->
  exists t c c',
    st_options st !! "target" = Some t /\
    st_options st !! "compression" = Some c /\
    out !! "compression" = Some c' /\
    (t = VNone -> c = VNone -> c' = VStr "tar") /\
    out !! "target_type" = Some (VStr (if truthy c' then "archive" else "folder")) /\
    (truthy c' = false ->
     exists dir, out !! "target" = Some dir /\
                 (directory_exists dir).1 = Return tt).
Proof.
  intros Hrun.
  apply process_backup_options_Return in Hrun
    as (_ & f & d & p & given & c & m & v & t & cmp & t' &
        _ & _ & _ & _ & _ & _ & _ & Ht & Hcmp & Hpt & Hdir & ->).
  exists t, cmp, (final_compression t' cmp).
  unfold normalized. lookup_keys.
  repeat split; try assumption.
  - intros -> ->. cbn in Hpt. injection Hpt as <-. reflexivity.
  - eauto.
Qed.

(** C6, as the code has it.  [options['project_name']] is the given
    project name when that is true (given and non-empty), otherwise
    the value of [COMPOSE_PROJECT_NAME] when that is set and non-empty,
    otherwise the name of the project directory, its last component. *)
Theorem project_name_resolution st out st' :
  process_backup_options environ directory_exists st = (Return out, st') ->
  exists given p,
    st_options st !! "project_name" = Some given /\
    out !! "project_dir" = Some (VPath p) /\
    out !! "project_name" =
      Some (if truthy given then given
            else match environ !! "COMPOSE_PROJECT_NAME" with
                 | Some s => if String.eqb s "" then VStr (PurePath.name p)
                             else VStr s
                 | None => VStr (PurePath.name p)
                 end).
Proof.
  intros Hrun.
  apply process_backup_options_Return in Hrun
    as (_ & f & d & p & given & c & m & v & t & cmp & t' &
        _ & _ & _ & Hg & _ & _ & _ & _ & _ & _ & _ & ->).
  exists given, p. unfold normalized. lookup_keys.
  repeat split; assumption || reflexivity.
Qed.

(** C9.  The returned dictionary has none of the keys [action], [file],
    [config], [mounted], [volumes] and has all of [compose_files],
    [scopes], [project_name], [project_dir], [compression], [target],
    [target_type]. *)
Theorem canonical_shape st out st' :
  process_backup_options environ directory_exists st = (Return out, st') ->
  Forall (fun k => out !! k = None)
    ["action"; "file"; "config"; "mounted"; "volumes"] /\
  Forall (fun k => is_Some (out !! k))
    ["compose_files"; "scopes"; "project_name"; "project_dir";
     "compression"; "target"; "target_type"].
Proof.
  intros Hrun.
  apply process_backup_options_Return in Hrun
    as (_ & f & d & p & given & c & m & v & t & cmp & t' &
        _ & _ & _ & _ & _ & _ & _ & _ & _ & _ & _ & ->).
  unfold normalized.
  split; repeat constructor; lookup_keys;
    first [reflexivity | eexists; reflexivity].
Qed.

(** C10.  A compression that is given (not [None]) is returned as it
    was given, whatever the target. *)
Theorem given_compression_kept st out st' c :
  process_backup_options environ directory_exists st = (Return out, st') ->
  st_options st !! "compression" = Some c ->
  c <> VNone ->
  out !! "compression" = Some c.
Proof.
  intros Hrun Hc Hgiven.
  apply process_backup_options_Return in Hrun
    as (_ & f & d & p & given & c0 & m & v & t & cmp & t' &
        _ & _ & _ & _ & _ & _ & _ & _ & Hcmp & _ & _ & ->).
  rewrite Hc in Hcmp. injection Hcmp as <-.
  unfold normalized. lookup_keys. unfold final_compression.
  destruct c; try reflexivity. contradiction.
Qed.

End NormalizerClaims.

(** ** The compose context loader *)

Section LoaderClaims.

Context `{ComposeConfig} `{Interpreter}.

(** The calls of lines 134-136 went through: the project directory
    is [d], the environment was read and the compose files found. *)
Variables (st : state) (d files : value).
Variables (environment : Environment) (details : ConfigDetails).
Hypothesis Hdir : st_options st !! "project_dir" = Some d.
Hypothesis Henv : from_env_file (py_str d) = Return environment.
Hypothesis Hfiles : st_options st !! "compose_files" = Some files.
Hypothesis Hfind : find (py_str d) files environment = Return details.

Lemma try_load_Return config (k : Config -> M (Config * ConfigDetails * Environment)) s :
  load details = Return config ->
  bind (try_except (lift (load details))
          (fun e => match e with
                    | ConfigurationError msg =>
                        Some (log_error msg ;;; raise (SystemExit 1))
                    | _ => None
                    end)) k s
  = k config s.
Proof. intros Hload. unfold bind, try_except, lift. now rewrite Hload. Qed.

(** C5.  When [compose_config.load] raises a [ConfigurationError], its
    message is logged as an error and [SystemExit(1)] is raised in its
    place; the options are as they were. *)
Theorem configuration_error_exits msg :
  load details = Raise (ConfigurationError msg) ->
  get_compose_context st =
    (Raise (SystemExit 1),
     mkState (st_options st) (st_log st ++ [(ERROR, msg)])).
Proof.
  intros Hload. unfold get_compose_context. run_fwd.
  unfold bind at 1, try_except, lift. rewrite Hload. reflexivity.
Qed.

(** X12.  An error of [compose_config.find], raised before the [try], is not
    caught: it leaves the call as it is. *)
Lemma find_error_propagates e :
  find (py_str d) files environment = Raise e ->
  get_compose_context st = (Raise e, st).
Proof.
  intros Hfail. clear Hfind. unfold get_compose_context. run_fwd.
  unfold bind at 1, lift. rewrite Hfail. reflexivity.
Qed.

(** C4.  When the configuration is loaded and [options['services']]
    holds a name that no service of the configuration has, an error is
    logged and [SystemExit(1)] is raised. *)
Theorem unknown_service_exits config given wanted name :
  load details = Return config ->
  st_options st !! "services" = Some given ->
  py_set given = Return wanted ->
  name ∈ wanted ->
  name ∉ service_names config ->
  get_compose_context st =
    (Raise (SystemExit 1),
     mkState (st_options st)
       (st_log st ++
        [(ERROR,
          "Unknown services: " ++
          Str.join ", "
            (set_iter (wanted ∖ list_to_set (service_names config))))])).
Proof.
  intros Hload Hgiven Hset Hin Hout. unfold get_compose_context. run_fwd.
  rewrite (try_load_Return config) by exact Hload. run_fwd.
  rewrite bool_decide_eq_false_2.
  - reflexivity.
  - intros Hempty.
    assert (Hname : name ∈ wanted ∖ list_to_set (C:=gset string) (service_names config))
      by (apply elem_of_difference; split; [exact Hin | now rewrite elem_of_list_to_set]).
    rewrite Hempty in Hname. now apply not_elem_of_empty in Hname.
Qed.

(** C8.  When the configuration is loaded and every name asked for is
    known, the call returns; an empty [options['services']] is replaced
    by the tuple of all service names in the order of the
    configuration, a non-empty one is left as it is. *)
Theorem services_default config given wanted :
  load details = Return config ->
  st_options st !! "services" = Some given ->
  py_set given = Return wanted ->
  wanted ⊆ list_to_set (service_names config) ->
  get_compose_context st =
    (Return (config, details, environment),
     if truthy given then st
     else mkState
            (<["services" := VTuple (List.map name (services config))]>
               (st_options st))
            (st_log st)).
Proof.
  intros Hload Hgiven Hset Hsub. unfold get_compose_context. run_fwd.
  rewrite (try_load_Return config) by exact Hload. run_fwd.
  rewrite bool_decide_eq_true_2
  by now apply subseteq_empty_difference_L.
  cbn [negb]. run_fwd.
  destruct (truthy given); cbn [negb]; run_fwd; reflexivity.
Qed.

End LoaderClaims.

(** ** The argument parser *)

Section ArgparseFacts.

(** Running the actions that matched only ever stores under the
    [dest] of a declared argument. *)
Lemma run_actions_other_key parser key hits ns :
  Forall (fun a => dest a <> key) (actions parser) ->
  List.fold_left (run_action parser) hits ns !! key = ns !! key.
Proof.
  intros Hdest. revert ns.
  induction hits as [|hit hits IH]; intros ns; [reflexivity |].
  cbn [List.fold_left]. rewrite IH. unfold run_action.
  destruct (actions parser !! hit.1) as [a|] eqn:Ha; [| reflexivity].
  destruct (action a); try reflexivity.
  all: apply lookup_insert_ne.
  all: eapply (proj1 (Forall_forall _ _) Hdest), list_elem_of_lookup_2, Ha.
Qed.

(** Keys are never taken out of the namespace. *)
Lemma run_actions_keeps_keys parser key hits ns :
  is_Some (ns !! key) ->
  is_Some (List.fold_left (run_action parser) hits ns !! key).
Proof.
  revert ns.
  induction hits as [|hit hits IH]; intros ns Hkey; [exact Hkey |].
  cbn [List.fold_left]. apply IH. unfold run_action.
  destruct (actions parser !! hit.1) as [a|]; [| exact Hkey].
  destruct (action a); try exact Hkey.
  all: rewrite lookup_insert; case_decide; eauto.
Qed.

Lemma setdefault_lookup_eq k v (ns : Namespace) :
  setdefault k v ns !! k = Some (from_option id v (ns !! k)).
Proof.
  unfold setdefault. destruct (ns !! k) as [w|] eqn:E; cbn.
  - exact E.
  - apply lookup_insert_eq.
Qed.

Lemma setdefault_lookup_ne k v (ns : Namespace) key :
  k <> key -> setdefault k v ns !! key = ns !! key.
Proof.
  intros Hne. unfold setdefault. destruct (ns !! k); [reflexivity |].
  now apply lookup_insert_ne.
Qed.

End ArgparseFacts.

Section CliClaims.

Context `{Matcher}.
Variable getcwd : string.

(** The parser the sub-commands object holds for [backup] once
    [add_backup_parser] is through. *)
Lemma backup_parser_registered cmd :
  add_backup_parser getcwd add_subparsers !! cmd =
    if decide (cmd = "backup")
    then add_backup_parser getcwd add_subparsers !! "backup"
    else None.
Proof.
  case_decide as Hcmd; [now subst |].
  unfold add_backup_parser, on_parser, add_parser, add_subparsers.
  rewrite lookup_alter_ne by congruence.
  rewrite lookup_insert_ne by congruence. apply lookup_empty.
Qed.

Lemma backup_parser_lookup :
  exists parser,
    add_backup_parser getcwd add_subparsers !! "backup" = Some parser /\
    defaults parser = [("action", VFunction "backup")] /\
    List.map dest (actions parser) =
      ["help"; "config"; "compression"; "file"; "mounted"; "no_pause";
       "project_dir"; "project_name"; "resolve_symlinks"; "target";
       "verbose"; "volumes"; "services"] /\
    List.map default (actions parser) =
      [SUPPRESS; Value (VBool false); Value VNone; Value VNone;
       Value (VBool false); Value (VBool false); Value (VStr getcwd);
       Value VNone; Value (VBool false); Value VNone; Value (VBool false);
       Value (VBool false); Value (VTuple [])].
Proof.
  unfold add_backup_parser, on_parser, add_parser, add_subparsers.
  rewrite lookup_alter_eq, lookup_insert_eq. cbn [fmap option_fmap option_map].
  eexists. split; [reflexivity |]. repeat split; reflexivity.
Qed.

Lemma backup_defaults_action parser ns :
  add_backup_parser getcwd add_subparsers !! "backup" = Some parser ->
  ns !! "action" = None ->
  add_defaults parser ns !! "action" = Some (VFunction "backup").
Proof.
  unfold add_backup_parser, on_parser, add_parser, add_subparsers.
  rewrite lookup_alter_eq, lookup_insert_eq. cbn [fmap option_fmap option_map].
  intros [= <-] Hns. unfold add_defaults.
  cbn -[setdefault].
  rewrite setdefault_lookup_eq.
  repeat rewrite setdefault_lookup_ne by discriminate.
  now rewrite Hns.
Qed.

(** Every attribute the [backup] parser declares, and [action], is in
    the namespace before any argument string is looked at. *)
Lemma backup_defaults_keys parser ns :
  add_backup_parser getcwd add_subparsers !! "backup" = Some parser ->
  Forall (fun k => is_Some (add_defaults parser ns !! k))
    ["action"; "config"; "compression"; "file"; "mounted"; "no_pause";
     "project_dir"; "project_name"; "resolve_symlinks"; "target";
     "verbose"; "volumes"; "services"].
Proof.
  unfold add_backup_parser, on_parser, add_parser, add_subparsers.
  rewrite lookup_alter_eq, lookup_insert_eq. cbn [fmap option_fmap option_map].
  intros [= <-]. unfold add_defaults.
  cbn -[setdefault].
  repeat constructor.
  all: repeat rewrite setdefault_lookup_ne by discriminate.
  all: rewrite setdefault_lookup_eq; eauto.
Qed.

Lemma backup_parser_dests parser :
  add_backup_parser getcwd add_subparsers !! "backup" = Some parser ->
  Forall (fun a => dest a <> "action") (actions parser).
Proof.
  unfold add_backup_parser, on_parser, add_parser, add_subparsers.
  rewrite lookup_alter_eq, lookup_insert_eq. cbn [fmap option_fmap option_map].
  intros [= <-]. cbn. repeat constructor; discriminate.
Qed.

(** C7.  [add_restore_parser] leaves the sub-commands object as it
    found it, so [backup] is the only command there is, and whatever
    the argument strings, the namespace that comes back holds either no
    action or [backup]: never an action for [restore]. *)
Theorem restore_is_a_stub :
  (forall subparsers, add_restore_parser subparsers = subparsers) /\
  (forall cmd,
     is_Some (add_restore_parser (add_backup_parser getcwd add_subparsers) !! cmd) ->
     cmd = "backup") /\
  (forall args ns,
     parse_cli_args getcwd args = Return ns ->
     ns !! "action" = None \/ ns !! "action" = Some (VFunction "backup")).
Proof.
  split; [reflexivity |]. split.
  - intros cmd. unfold add_restore_parser.
    rewrite backup_parser_registered. case_decide; [easy |].
    intros [? ?]; discriminate.
  - intros args ns. unfold parse_cli_args, parse_args, add_restore_parser.
    destruct (match_arguments _ true args) as [[hits sub]|e]; [| discriminate].
    set (top := add_argument ["--version"] version None None None new_parser).
    assert (Htop : forall ns0,
               List.fold_left (run_action top) hits ns0 !! "action"
               = ns0 !! "action").
    { intros ns0. apply run_actions_other_key.
      subst top. cbn. repeat constructor; discriminate. }
    destruct sub as [[cmd rest]|].
    + rewrite backup_parser_registered. case_decide; [| discriminate].
      destruct (add_backup_parser getcwd add_subparsers !! "backup")
        as [parser|] eqn:Hparser; [| discriminate].
      unfold parse_known_args.
      destruct (match_arguments _ false rest) as [[hits' sub']|e];
        [| discriminate].
      intros [= <-]. right.
      rewrite run_actions_other_key by now apply backup_parser_dests.
      apply backup_defaults_action; [exact Hparser |].
      rewrite Htop. reflexivity.
    + intros [= <-]. left. rewrite Htop. reflexivity.
Qed.

(** What the parser hands to [backup] has every key the normaliser and
    the loader read. *)
Lemma backup_namespace_keys args ns :
  parse_cli_args getcwd args = Return ns ->
  ns !! "action" = Some (VFunction "backup") ->
  Forall (fun k => is_Some (ns !! k))
    ["action"; "config"; "compression"; "file"; "mounted"; "no_pause";
     "project_dir"; "project_name"; "resolve_symlinks"; "target";
     "verbose"; "volumes"; "services"].
Proof.
  unfold parse_cli_args, parse_args, add_restore_parser.
  destruct (match_arguments _ true args) as [[hits sub]|e]; [| discriminate].
  set (top := add_argument ["--version"] version None None None new_parser).
  destruct sub as [[cmd rest]|].
  - rewrite backup_parser_registered. case_decide; [| discriminate].
    destruct (add_backup_parser getcwd add_subparsers !! "backup")
      as [parser|] eqn:Hparser; [| discriminate].
    unfold parse_known_args.
    destruct (match_arguments _ false rest) as [[hits' sub']|e];
      [| discriminate].
    intros [= <-] _.
    eapply Forall_impl; [apply (backup_defaults_keys parser), Hparser |].
    intros k Hk. apply run_actions_keeps_keys, Hk.
  - intros [= <-].
    rewrite run_actions_other_key
      by (subst top; cbn; repeat constructor; discriminate).
    discriminate.
Qed.

End CliClaims.

(** ** The statements above at sample inputs *)

Lemma scopes_from_flags_witness :
  process_backup_options ∅ all_exist sample_state
  = (Return sample_out, mkState sample_out []) /\
  sample_out !! "scopes" = Some (VTuple ["config"; "volumes"]).
Proof.
  split; [exact sample_run |].
  exact (scopes_from_flags ∅ all_exist _ _ _ sample_run).
Defined.

Lemma compression_from_suffix_witness :
  (PurePath.suffix (PurePath.of_string "/backups/app.tar.gz")
     ∈ [".bz2"; ".gz"; ".tar"; ".xz"]) /\
  sample_out !! "compression" = Some (VStr "gz").
Proof.
  assert (Hsfx : PurePath.suffix (PurePath.of_string "/backups/app.tar.gz")
                   ∈ [".bz2"; ".gz"; ".tar"; ".xz"]) by by_evaluation.
  split; [exact Hsfx |].
  refine (proj1 (compression_from_suffix ∅ all_exist sample_state sample_out _
                   (VStr "/backups/app.tar.gz")
                   (PurePath.of_string "/backups/app.tar.gz")
                   sample_run _ _ _ Hsfx)); reflexivity.
Defined.

Lemma target_type_from_compression_witness :
  process_backup_options ∅ all_exist (mkState (vars bare_args) [])
  = (Return bare_out, mkState bare_out []) /\
  exists t c c',
    vars bare_args !! "target" = Some t /\
    vars bare_args !! "compression" = Some c /\
    bare_out !! "compression" = Some c' /\
    (t = VNone -> c = VNone -> c' = VStr "tar") /\
    bare_out !! "target_type" = Some (VStr (if truthy c' then "archive" else "folder")) /\
    (truthy c' = false ->
     exists dir, bare_out !! "target" = Some dir /\ (all_exist dir).1 = Return tt).
Proof.
  split; [exact bare_run |].
  exact (target_type_from_compression ∅ all_exist _ _ _ bare_run).
Defined.

Lemma project_name_resolution_witness :
  process_backup_options stack_environ all_exist (mkState (vars named_args) [])
  = (Return named_out, mkState named_out []) /\
  exists given p,
    vars named_args !! "project_name" = Some given /\
    named_out !! "project_dir" = Some (VPath p) /\
    named_out !! "project_name" =
      Some (if truthy given then given
            else match stack_environ !! "COMPOSE_PROJECT_NAME" with
                 | Some s => if String.eqb s "" then VStr (PurePath.name p)
                             else VStr s
                 | None => VStr (PurePath.name p)
                 end).
Proof.
  split; [exact named_run |].
  exact (project_name_resolution stack_environ all_exist _ _ _ named_run).
Defined.

(** C6, as it is worded, fails for [-p ''] with
    [COMPOSE_PROJECT_NAME=stack]: a project name is given (the empty
    string, not [None]), and the name that comes back is [stack]. *)
Lemma project_name_given_empty :
  vars named_args !! "project_name" = Some (VStr "") /\
  VStr "" <> VNone /\
  process_backup_options stack_environ all_exist (mkState (vars named_args) [])
  = (Return named_out, mkState named_out []) /\
  named_out !! "project_name" = Some (VStr "stack") /\
  named_out !! "project_name" <> Some (VStr "").
Proof.
  split; [reflexivity |]. split; [discriminate |].
  split; [exact named_run |]. split; [reflexivity | discriminate].
Qed.

Lemma canonical_shape_witness :
  process_backup_options ∅ all_exist sample_state
  = (Return sample_out, mkState sample_out []) /\
  Forall (fun k => sample_out !! k = None)
    ["action"; "file"; "config"; "mounted"; "volumes"] /\
  Forall (fun k => is_Some (sample_out !! k))
    ["compose_files"; "scopes"; "project_name"; "project_dir";
     "compression"; "target"; "target_type"].
Proof.
  split; [exact sample_run |].
  exact (canonical_shape ∅ all_exist _ _ _ sample_run).
Defined.

Lemma given_compression_kept_witness :
  vars named_args !! "compression" = Some (VStr "xz") /\
  VStr "xz" <> VNone /\
  named_out !! "compression" = Some (VStr "xz").
Proof.
  assert (Hc : vars named_args !! "compression" = Some (VStr "xz")) by reflexivity.
  assert (Hn : VStr "xz" <> VNone) by discriminate.
  split; [exact Hc |]. split; [exact Hn |].
  exact (given_compression_kept stack_environ all_exist
           (mkState (vars named_args) []) _ _ _ named_run Hc Hn).
Defined.

Lemma configuration_error_exits_witness :
  @get_compose_context
    (fixed_compose (Raise (ConfigurationError "services must be a mapping")))
    sample_interpreter (loader_state (VTuple []))
  = (Raise (SystemExit 1),
     mkState (st_options (loader_state (VTuple [])))
       [(ERROR, "services must be a mapping")]).
Proof.
  exact (@configuration_error_exits
           (fixed_compose (Raise (ConfigurationError "services must be a mapping")))
           sample_interpreter (loader_state (VTuple []))
           (VPath (PurePath.mk "/" ["srv"; "app"])) VNone tt VNone
           eq_refl eq_refl eq_refl eq_refl
           "services must be a mapping" eq_refl).
Defined.

Lemma unknown_service_exits_witness :
  ("cache" ∈ (list_to_set ["web"; "cache"] : gset string)) /\
  ("cache" ∉ service_names sample_config) /\
  @get_compose_context (fixed_compose (Return sample_config)) sample_interpreter
    (loader_state (VList ["web"; "cache"]))
  = (Raise (SystemExit 1),
     mkState (st_options (loader_state (VList ["web"; "cache"])))
       [(ERROR, "Unknown services: cache")]).
Proof.
  assert (Hin : "cache" ∈ (list_to_set ["web"; "cache"] : gset string))
    by by_evaluation.
  assert (Hout : "cache" ∉ service_names sample_config) by by_evaluation.
  split; [exact Hin |]. split; [exact Hout |].
  exact (@unknown_service_exits (fixed_compose (Return sample_config))
           sample_interpreter (loader_state (VList ["web"; "cache"]))
           (VPath (PurePath.mk "/" ["srv"; "app"])) VNone tt VNone
           eq_refl eq_refl eq_refl eq_refl
           sample_config (VList ["web"; "cache"]) (list_to_set ["web"; "cache"])
           "cache" eq_refl eq_refl eq_refl Hin Hout).
Defined.

Lemma services_default_witness :
  ((∅ : gset string) ⊆ list_to_set (service_names sample_config)) /\
  @get_compose_context (fixed_compose (Return sample_config)) sample_interpreter
    (loader_state (VTuple []))
  = (Return (sample_config, VNone, tt),
     mkState (<["services" := VTuple ["web"; "db"]]> (<["services" := VTuple []]> sample_out))
       []).
Proof.
  assert (Hsub : (∅ : gset string) ⊆ list_to_set (service_names sample_config))
    by apply empty_subseteq.
  split; [exact Hsub |].
  exact (@services_default (fixed_compose (Return sample_config))
           sample_interpreter (loader_state (VTuple []))
           (VPath (PurePath.mk "/" ["srv"; "app"])) VNone tt VNone
           eq_refl eq_refl eq_refl eq_refl
           sample_config (VTuple []) ∅ eq_refl eq_refl eq_refl Hsub).
Defined.

Lemma restore_is_a_stub_witness :
  exists ns,
    @parse_cli_args exact_matcher "/srv/app" ["backup"; "--volumes"] = Return ns /\
    ns !! "volumes" = Some (VBool true) /\
    (ns !! "action" = None \/ ns !! "action" = Some (VFunction "backup")).
Proof.
  eexists. split; [reflexivity |]. split; [reflexivity |].
  apply (proj2 (proj2 (@restore_is_a_stub exact_matcher "/srv/app"))
           ["backup"; "--volumes"]).
  reflexivity.
Defined.

(** With a matcher of exact names, [restore] is a usage error. *)
Example restore_command_refused :
  @parse_cli_args exact_matcher "/srv/app" ["restore"] = Raise (SystemExit 2).
Proof. reflexivity. Qed.


(** ** More on the option normaliser *)

Lemma getitem_raise k st :
  st_options st !! k = None -> getitem k st = (Raise (KeyError k), st).
Proof. unfold getitem. now intros ->. Qed.

Lemma delitem_raise k st :
  st_options st !! k = None -> delitem k st = (Raise (KeyError k), st).
Proof. unfold delitem. now intros ->. Qed.


Section NormalizerMore.

Variable environ : gmap string string.
Variable directory_exists : value -> result unit * list log_record.

(** X1.  Entries under keys the normaliser neither assigns nor deletes come
    back as they went in: [services], [no_pause], [resolve_symlinks],
    [verbose] and whatever else the dictionary holds. *)
Theorem other_entries_kept st out st' k :
  process_backup_options environ directory_exists st = (Return out, st') ->
  k ∉ ["action"; "file"; "compose_files"; "project_dir"; "project_name";
       "scopes"; "config"; "mounted"; "volumes"; "target"; "compression";
       "target_type"] ->
  out !! k = st_options st !! k.
Proof.
  intros Hrun Hk.
  apply process_backup_options_Return in Hrun
    as (_ & f & d & p & given & c & m & v & t & cmp & t' &
        _ & _ & _ & _ & _ & _ & _ & _ & _ & _ & _ & ->).
  repeat (apply not_elem_of_cons in Hk as [? Hk]).
  unfold normalized.
  repeat first [rewrite lookup_insert_ne by congruence
               | rewrite lookup_delete_ne by congruence].
  reflexivity.
Qed.

(** X2.  [compose_files] takes over what [file] held; [project_dir] is the
    given directory as a path; [target] stays [None] or is the given
    target as a path. *)
Theorem files_and_paths st out st' :
  process_backup_options environ directory_exists st = (Return out, st') ->
  out !! "compose_files" = st_options st !! "file" /\
  (exists d p,
     st_options st !! "project_dir" = Some d /\
     Path d = Return (VPath p) /\
     out !! "project_dir" = Some (VPath p)) /\
  (exists t,
     st_options st !! "target" = Some t /\
     ((t = VNone /\ out !! "target" = Some VNone) \/
      (exists p, Path t = Return (VPath p) /\ out !! "target" = Some (VPath p)))).
Proof.
  intros Hrun.
  apply process_backup_options_Return in Hrun
    as (_ & f & d & p & given & c & m & v & t & cmp & t' &
        Hf & Hd & Hp & _ & _ & _ & _ & Ht & _ & Hpt & _ & ->).
  unfold normalized. lookup_keys. split; [now rewrite Hf |].
  split; [now exists d, p |].
  exists t. split; [exact Ht |].
  unfold parsed_target in Hpt. destruct (is_none t) eqn:Et.
  - left. injection Hpt as <-. destruct t; try discriminate. auto.
  - right. destruct (Path_Return _ _ Hpt) as [q ->]. eauto.
Qed.

(** X3.  The scopes that come back are never empty, never repeat a name and
    keep the order of [SCOPES]. *)
Theorem scopes_well_formed st out st' :
  process_backup_options environ directory_exists st = (Return out, st') ->
  exists xs,
    out !! "scopes" = Some (VTuple xs) /\
    xs <> [] /\ NoDup xs /\ sublist xs SCOPES.
Proof.
  intros Hrun.
  apply process_backup_options_Return in Hrun
    as (_ & f & d & p & given & c & m & v & t & cmp & t' &
        _ & _ & _ & _ & _ & _ & _ & _ & _ & _ & _ & ->).
  eexists. unfold normalized. lookup_keys. split; [reflexivity |].
  unfold chosen_scopes, SCOPES.
  destruct (truthy c), (truthy m), (truthy v); cbn [app].
  all: split; [discriminate |]; split.
  all: try by_evaluation.
  all: repeat first [apply sublist_nil | apply sublist_skip; [] | apply sublist_cons].
Qed.

(** X4.  A dictionary the normaliser has returned cannot be normalised again:
    [action] is gone, and the second call stops at line 98. *)
Theorem not_repeatable st out st' :
  process_backup_options environ directory_exists st = (Return out, st') ->
  process_backup_options environ directory_exists st'
  = (Raise (KeyError "action"), st').
Proof.
  intros Hrun.
  apply process_backup_options_Return in Hrun
    as (Hout & f & d & p & given & c & m & v & t & cmp & t' &
        _ & _ & _ & _ & _ & _ & _ & _ & _ & _ & _ & E).
  assert (Hgone : st_options st' !! "action" = None).
  { rewrite <- Hout, E. unfold normalized. now lookup_keys. }
  unfold process_backup_options, rename_block.
  erewrite bind_raise; [reflexivity |].
  erewrite bind_raise; [reflexivity |].
  now apply delitem_raise.
Qed.

(** X5.  When the check of the project directory raises, the call raises
    the same; by then [action] and [file] are gone, [compose_files] is
    there and [project_dir] is a path, and what the check logged is in
    the log. *)
Theorem project_dir_check_raises st a f d p e recs :
  st_options st !! "action" = Some a ->
  st_options st !! "file" = Some f ->
  st_options st !! "project_dir" = Some d ->
  Path d = Return (VPath p) ->
  directory_exists (VPath p) = (Raise e, recs) ->
  process_backup_options environ directory_exists st
  = (Raise e,
     mkState
       (<["project_dir" := VPath p]>
          (delete "file" (<["compose_files" := f]> (delete "action" (st_options st)))))
       (st_log st ++ recs)).
Proof.
  intros Ha Hf Hd Hp Hde. unfold process_backup_options.
  erewrite bind_run by (eapply rename_block_run; eassumption).
  erewrite bind_raise; [reflexivity |].
  unfold project_block. run_fwd.
  erewrite bind_raise; [reflexivity |].
  unfold call_directory_exists. now rewrite Hde.
Qed.

(** X6.  Without a target the dump is an archive, whether a compression was
    given or not; only a compression that is false without being [None]
    (the parser stores none such) would make it a folder. *)
Theorem no_target_is_archive st out st' c :
  process_backup_options environ directory_exists st = (Return out, st') ->
  st_options st !! "target" = Some VNone ->
  st_options st !! "compression" = Some c ->
  c = VNone \/ truthy c = true ->
  out !! "target" = Some VNone /\
  out !! "target_type" = Some (VStr "archive") /\
  out !! "compression" = Some (if is_none c then VStr "tar" else c).
Proof.
  intros Hrun Ht Hc Hcases.
  apply process_backup_options_Return in Hrun
    as (_ & f & d & p & given & c0 & m & v & t & cmp & t' &
        _ & _ & _ & _ & _ & _ & _ & Ht0 & Hcmp & Hpt & _ & ->).
  rewrite Ht in Ht0. injection Ht0 as <-.
  rewrite Hc in Hcmp. injection Hcmp as <-.
  cbn in Hpt. injection Hpt as <-.
  unfold normalized. lookup_keys. unfold target_type_of, final_compression.
  destruct Hcases as [-> | Htrue]; [now cbn |].
  destruct (is_none c) eqn:En; [destruct c; discriminate |].
  now rewrite Htrue.
Qed.





End NormalizerMore.

(** ** Target names and the compression they stand for *)

Lemma length_string_app s1 s2 :
  String.length (s1 ++ s2) = (String.length s1 + String.length s2)%nat.
Proof.
  induction s1 as [|a s1 IH]; [reflexivity |].
  change (S (String.length (s1 ++ s2))
          = S (String.length s1 + String.length s2)%nat).
  now rewrite IH.
Qed.

Lemma len_app s1 s2 : Str.len (s1 ++ s2) = Str.len s1 + Str.len s2.
Proof. unfold Str.len. rewrite length_string_app. lia. Qed.

Lemma rfind_from_app c s1 s2 i last :
  Str.rfind_from c (s1 ++ s2) i last
  = Str.rfind_from c s2 (i + Str.len s1) (Str.rfind_from c s1 i last).
Proof.
  revert i last. induction s1 as [|a s1 IH]; intros i last.
  - change ("" ++ s2) with s2. cbn [Str.rfind_from]. f_equal.
    change (Str.len "") with 0. lia.
  - change (String a s1 ++ s2) with (String a (s1 ++ s2)).
    cbn [Str.rfind_from]. rewrite IH. f_equal.
    unfold Str.len. cbn [String.length]. rewrite Nat2Z.inj_succ. lia.
Qed.

Lemma drop_app stem rest :
  Str.drop (String.length stem) (stem ++ rest) = rest.
Proof.
  induction stem as [|a stem IH]; [now destruct rest | exact IH].
Qed.

(** A name made of a non-empty stem, a dot and one of the four
    compressions has that dot and compression as its suffix, whatever
    dots the stem has. *)
Lemma suffix_of_compressed_name p stem ext :
  PurePath.name p = stem ++ "." ++ ext ->
  stem <> "" ->
  ext ∈ COMPRESSIONS ->
  PurePath.suffix p = "." ++ ext.
Proof.
  intros Hname Hstem Hext. unfold PurePath.suffix. rewrite Hname.
  assert (Hpos : 0 < Str.len stem).
  { destruct stem; [contradiction |]. unfold Str.len. cbn. lia. }
  assert (Hfind : Str.rfind "." (stem ++ "." ++ ext) = Str.len stem
                  /\ 0 < Str.len ext).
  { unfold Str.rfind. rewrite rfind_from_app. unfold COMPRESSIONS in Hext.
    repeat (apply elem_of_cons in Hext as [-> | Hext]; [now cbn |]).
    now apply elem_of_nil in Hext. }
  destruct Hfind as [-> Hext_pos].
  rewrite !len_app.
  replace (0 <? Str.len stem) with true by (symmetry; now apply Z.ltb_lt).
  replace (Str.len stem <? Str.len stem + (Str.len "." + Str.len ext) - 1)
    with true by (symmetry; apply Z.ltb_lt; change (Str.len ".") with 1; lia).
  cbn [andb]. unfold Str.len. rewrite Nat2Z.id. apply drop_app.
Qed.

Section TargetNames.

Variable environ : gmap string string.
Variable directory_exists : value -> result unit * list log_record.

(** X9.  A target such as [backup.tar.gz] or [my.project.xz], given without
    [--compression], is written as an archive of the compression its
    name ends in. *)
Theorem compression_from_target_name st out st' t p stem ext :
  process_backup_options environ directory_exists st = (Return out, st') ->
  st_options st !! "target" = Some t ->
  Path t = Return (VPath p) ->
  st_options st !! "compression" = Some VNone ->
  PurePath.name p = stem ++ "." ++ ext ->
  stem <> "" ->
  ext ∈ COMPRESSIONS ->
  out !! "compression" = Some (VStr ext) /\
  out !! "target_type" = Some (VStr "archive").
Proof.
  intros Hrun Ht Hp Hcmp Hname Hstem Hext.
  pose proof (suffix_of_compressed_name p stem ext Hname Hstem Hext) as Hsfx.
  apply process_backup_options_Return in Hrun
    as (_ & f & d & p' & given & c & m & v & t0 & cmp & t' &
        _ & _ & _ & _ & _ & _ & _ & Ht0 & Hcmp0 & Hpt & _ & ->).
  rewrite Ht in Ht0. injection Ht0 as <-.
  rewrite Hcmp in Hcmp0. injection Hcmp0 as <-.
  unfold parsed_target in Hpt.
  assert (Hnn : is_none t = false) by (destruct t; try reflexivity; discriminate).
  rewrite Hnn, Hp in Hpt. injection Hpt as <-.
  unfold normalized. lookup_keys.
  unfold target_type_of. cbn [final_compression is_none]. rewrite Hsfx.
  rewrite bool_decide_eq_true_2.
  - cbn [Str.drop String.append]. split; [reflexivity |].
    unfold COMPRESSIONS in Hext.
    repeat (apply elem_of_cons in Hext as [-> | Hext]; [reflexivity |]).
    now apply elem_of_nil in Hext.
  - unfold COMPRESSION_EXTENSIONS. apply list_elem_of_fmap. now exists ext.
Qed.

(** X10.  A target whose name is nothing but a dot and a compression, such as
    [.gz], has no suffix: no compression is inferred, and the target is
    taken for a folder. *)
Theorem dot_name_is_a_folder st out st' t p ext :
  process_backup_options environ directory_exists st = (Return out, st') ->
  st_options st !! "target" = Some t ->
  Path t = Return (VPath p) ->
  st_options st !! "compression" = Some VNone ->
  PurePath.name p = "." ++ ext ->
  ext ∈ COMPRESSIONS ->
  out !! "compression" = Some VNone /\
  out !! "target_type" = Some (VStr "folder").
Proof.
  intros Hrun Ht Hp Hcmp Hname Hext.
  assert (Hsfx : PurePath.suffix p = "").
  { unfold PurePath.suffix. rewrite Hname. unfold COMPRESSIONS in Hext.
    repeat (apply elem_of_cons in Hext as [-> | Hext]; [reflexivity |]).
    now apply elem_of_nil in Hext. }
  apply process_backup_options_Return in Hrun
    as (_ & f & d & p' & given & c & m & v & t0 & cmp & t' &
        _ & _ & _ & _ & _ & _ & _ & Ht0 & Hcmp0 & Hpt & _ & ->).
  rewrite Ht in Ht0. injection Ht0 as <-.
  rewrite Hcmp in Hcmp0. injection Hcmp0 as <-.
  unfold parsed_target in Hpt.
  assert (Hnn : is_none t = false) by (destruct t; try reflexivity; discriminate).
  rewrite Hnn, Hp in Hpt. injection Hpt as <-.
  unfold normalized. lookup_keys.
  unfold target_type_of. cbn [final_compression is_none]. rewrite Hsfx.
  rewrite bool_decide_eq_false_2; [now cbn |].
  intros Hin. unfold COMPRESSION_EXTENSIONS, COMPRESSIONS in Hin. cbn in Hin.
  repeat (apply elem_of_cons in Hin as [Hin | Hin]; [discriminate |]).
  now apply elem_of_nil in Hin.
Qed.

End TargetNames.

(** ** More on the compose context loader *)

Section LoaderMore.

Context `{ComposeConfig} `{Interpreter}.

(** The whole of [get_compose_context] once the configuration is
    loaded. *)
Lemma get_compose_context_run st d files environment details config given wanted :
  st_options st !! "project_dir" = Some d ->
  from_env_file (py_str d) = Return environment ->
  st_options st !! "compose_files" = Some files ->
  find (py_str d) files environment = Return details ->
  load details = Return config ->
  st_options st !! "services" = Some given ->
  py_set given = Return wanted ->
  get_compose_context st =
    if bool_decide (wanted ∖ list_to_set (service_names config) = ∅)
    then (Return (config, details, environment),
          if truthy given then st
          else mkState
                 (<["services" := VTuple (service_names config)]> (st_options st))
                 (st_log st))
    else (Raise (SystemExit 1),
          mkState (st_options st)
            (st_log st ++
             [(ERROR,
               "Unknown services: " ++
               Str.join ", "
                 (set_iter (wanted ∖ list_to_set (service_names config))))])).
Proof.
  intros Hdir Henv Hfiles Hfind Hload Hgiven Hset.
  unfold get_compose_context. run_fwd.
  rewrite (try_load_Return details config) by exact Hload. run_fwd.
  destruct (bool_decide _); cbn [negb]; [| reflexivity].
  run_fwd. destruct (truthy given); cbn [negb]; run_fwd; reflexivity.
Qed.

(** X11.  Only a [ConfigurationError] of [load] is turned into an exit: any
    other exception it raises leaves the call as it is, nothing logged. *)
Theorem load_error_propagates st d files environment details e :
  st_options st !! "project_dir" = Some d ->
  from_env_file (py_str d) = Return environment ->
  st_options st !! "compose_files" = Some files ->
  find (py_str d) files environment = Return details ->
  load details = Raise e ->
  (forall msg, e <> ConfigurationError msg) ->
  get_compose_context st = (Raise e, st).
Proof.
  intros Hdir Henv Hfiles Hfind Hload Hother.
  unfold get_compose_context. run_fwd.
  unfold bind at 1, try_except, lift. rewrite Hload.
  destruct e; try reflexivity. now destruct (Hother msg).
Qed.

(** X13.  What a returning call guarantees: the configuration is the one
    [load] returned; every name left in [options['services']] is a
    service of it, and there is at least one unless the configuration has
    no service at all; no other entry and no log record is touched. *)
Theorem returned_services_known st config details environment st' :
  get_compose_context st = (Return (config, details, environment), st') ->
  load details = Return config /\
  (exists asked wanted,
     st_options st' !! "services" = Some asked /\
     py_set asked = Return wanted /\
     wanted ⊆ list_to_set (service_names config) /\
     (truthy asked = true \/ service_names config = [])) /\
  (forall k, k <> "services" -> st_options st' !! k = st_options st !! k) /\
  st_log st' = st_log st.
Proof.
  unfold get_compose_context. intros Hrun. run_inv.
  unfold ret in Hrun. injection Hrun as -> -> -> ->.
  match goal with
  | Ht : try_except _ _ _ = (Return _, _) |- _ =>
      unfold try_except, lift in Ht;
      destruct (load details) as [cfg | e] eqn:Hload;
      [ injection Ht as -> <-
      | destruct e; try discriminate;
        unfold bind, log_error, raise in Ht; discriminate ]
  end.
  match goal with
  | Hi : (if negb (bool_decide ?P) then _ else _) _ = (Return _, _) |- _ =>
      destruct (bool_decide P) eqn:Hknown; cbn [negb] in Hi;
      [| unfold bind, log_error, raise in Hi; discriminate]
  end.
  apply bool_decide_eq_true_1 in Hknown. run_inv.
  split; [reflexivity |].
  match goal with
  | Hg : _ !! "services" = Some ?g, Hg' : _ !! "services" = Some ?g',
    Hs : (if negb (truthy ?g') then _ else _) _ = _ |- _ =>
      rewrite Hg in Hg'; injection Hg' as <-;
      destruct (truthy g) eqn:Htruth; cbn [negb] in Hs; run_inv
  end.
  - split; [| split; reflexivity].
    eexists _, _. repeat split; [eassumption | eassumption | | now left].
    intros name Hin.
    destruct (decide (name ∈ (list_to_set (service_names config) : gset string)))
      as [Hyes | Hno]; [exact Hyes |].
    assert (Hd : name ∈ (∅ : gset string))
      by (rewrite <- Hknown; now apply elem_of_difference).
    now apply not_elem_of_empty in Hd.
  - split; [| split; [intros k Hk; now apply lookup_insert_ne | reflexivity]].
    exists (VTuple (service_names config)), (list_to_set (service_names config)).
    rewrite lookup_insert_eq.
    split; [reflexivity |]. split; [reflexivity |]. split; [reflexivity |].
    unfold service_names. destruct (services config); [now right | now left].
Qed.

End LoaderMore.

(** ** More on the argument parser *)

Section CliMore.

Context `{Matcher}.
Variable getcwd : string.

(** The top-level parser declares [--help] and [--version] only, and
    neither leaves anything in the namespace. *)
Lemma top_actions_store_nothing hits (ns : Namespace) :
  List.fold_left
    (run_action (add_argument ["--version"] version None None None new_parser))
    hits ns = ns.
Proof.
  revert ns. induction hits as [|hit hits IH]; intros ns; [reflexivity |].
  cbn [List.fold_left]. rewrite IH. unfold run_action.
  destruct hit as [[|[|n]] w]; reflexivity.
Qed.

Lemma setdefault_fresh k v (ns : Namespace) :
  ns !! k = None -> setdefault k v ns = <[k := v]> ns.
Proof. unfold setdefault. now intros ->. Qed.

(** What [parse_cli_args] can return: the empty namespace when no command
    was given, or a namespace with the action [backup] and every
    attribute of the [backup] parser. *)
Lemma parse_cli_args_cases args ns :
  parse_cli_args getcwd args = Return ns ->
  ns = ∅ \/
  (ns !! "action" = Some (VFunction "backup") /\
   Forall (fun k => is_Some (ns !! k))
     ["action"; "config"; "compression"; "file"; "mounted"; "no_pause";
      "project_dir"; "project_name"; "resolve_symlinks"; "target";
      "verbose"; "volumes"; "services"]).
Proof.
  unfold parse_cli_args, parse_args, add_restore_parser.
  destruct (match_arguments _ true args) as [[hits sub]|e]; [| discriminate].
  rewrite top_actions_store_nothing.
  change (add_defaults (add_argument ["--version"] version None None None new_parser) ∅)
    with (∅ : Namespace).
  destruct sub as [[cmd rest]|]; [| intros [= <-]; now left].
  rewrite backup_parser_registered. case_decide; [| discriminate].
  destruct (add_backup_parser getcwd add_subparsers !! "backup")
    as [parser|] eqn:Hparser; [| discriminate].
  unfold parse_known_args.
  destruct (match_arguments _ false rest) as [[hits' sub']|e]; [| discriminate].
  intros [= <-]. right. split.
  - rewrite run_actions_other_key by now apply (backup_parser_dests getcwd).
    now apply (backup_defaults_action getcwd).
  - eapply Forall_impl; [apply (backup_defaults_keys getcwd parser), Hparser |].
    intros k Hk. apply run_actions_keeps_keys, Hk.
Qed.

(** X14.  Every namespace the parser returns for [backup] has the thirteen
    attributes the callers read, whatever strings were matched. *)
Theorem backup_namespace_complete args ns :
  parse_cli_args getcwd args = Return ns ->
  ns !! "action" = Some (VFunction "backup") ->
  Forall (fun k => is_Some (ns !! k))
    ["action"; "config"; "compression"; "file"; "mounted"; "no_pause";
     "project_dir"; "project_name"; "resolve_symlinks"; "target";
     "verbose"; "volumes"; "services"].
Proof.
  intros Hparse Haction.
  destruct (parse_cli_args_cases args ns Hparse) as [-> | [_ Hkeys]];
    [discriminate | exact Hkeys].
Qed.

(** X15.  A command other than [backup] is a usage error, exit status 2:
    [restore] too. *)
Theorem unknown_command_refused args hits cmd rest :
  match_arguments
    (actions (add_argument ["--version"] version None None None new_parser))
    true args = Return (hits, Some (cmd, rest)) ->
  cmd <> "backup" ->
  parse_cli_args getcwd args = Raise (SystemExit 2).
Proof.
  intros Hmatch Hcmd. unfold parse_cli_args, parse_args, add_restore_parser.
  rewrite Hmatch, backup_parser_registered.
  now rewrite decide_False.
Qed.

(** X16.  [backup] with nothing after it that matches an argument: the
    namespace is made of the defaults, with the working directory as
    project directory and the empty tuple as services. *)
Theorem backup_defaults args hits rest parser sub :
  match_arguments
    (actions (add_argument ["--version"] version None None None new_parser))
    true args = Return (hits, Some ("backup", rest)) ->
  add_backup_parser getcwd add_subparsers !! "backup" = Some parser ->
  match_arguments (actions parser) false rest = Return ([], sub) ->
  parse_cli_args getcwd args =
    Return (list_to_map
              [ ("action", VFunction "backup");
                ("services", VTuple []);
                ("volumes", VBool false);
                ("verbose", VBool false);
                ("target", VNone);
                ("resolve_symlinks", VBool false);
                ("project_name", VNone);
                ("project_dir", VStr getcwd);
                ("no_pause", VBool false);
                ("mounted", VBool false);
                ("file", VNone);
                ("compression", VNone);
                ("config", VBool false) ]).
Proof.
  intros Hmatch Hparser Hrest.
  unfold parse_cli_args, parse_args, add_restore_parser.
  rewrite Hmatch, Hparser. unfold parse_known_args. rewrite Hrest.
  cbn [List.fold_left]. rewrite top_actions_store_nothing. f_equal.
  revert Hparser. unfold add_backup_parser, on_parser, add_parser, add_subparsers.
  rewrite lookup_alter_eq, lookup_insert_eq. cbn [fmap option_fmap option_map].
  intros [= <-]. unfold add_defaults. cbn -[setdefault].
  repeat rewrite setdefault_fresh by (lookup_keys; apply lookup_empty).
  reflexivity.
Qed.

End CliMore.

(** ** From the command line to the dump *)

Section InvokerFacts.

Context `{ComposeConfig} `{Interpreter} `{Matcher}.

Variable environ : gmap string string.
Variable directory_exists : value -> result unit * list log_record.
Variable getcwd : string.
Variable create_dump : DumpContext -> M unit.
Variable setup_loghandler : value -> M unit.
Variable dict_str : gmap string value -> string.
Variable call_other : string -> Namespace -> M unit.

(** The normaliser hands the services on untouched, and the directory
    and files the loader asks for are in what it returns. *)
Lemma normalised_for_loader (args : Namespace) lg out st1 given :
  process_backup_options environ directory_exists (mkState args lg)
  = (Return out, st1) ->
  args !! "services" = Some given ->
  st_options st1 = out /\
  out !! "services" = Some given /\
  exists p, out !! "project_dir" = Some (VPath p) /\
            out !! "compose_files" = args !! "file".
Proof.
  intros Hrun Hgiven.
  apply process_backup_options_Return in Hrun
    as (Hout & f & d & p & gn & c & m & v & t & cmp & t' &
        Hf & _ & _ & _ & _ & _ & _ & _ & _ & _ & _ & E).
  cbn [st_options] in *. split; [now symmetry |].
  rewrite E. unfold normalized. lookup_keys.
  split; [exact Hgiven |]. exists p. split; [reflexivity | now rewrite Hf].
Qed.

(** X17.  [backup] with a service name the configuration does not have: the
    options are normalised, the configuration is loaded, an error is
    logged and the call exits with status 1.  [create_dump] has no part
    in it. *)
Theorem backup_unknown_service_exits (args : Namespace) st out st1 p files
    environment details config given wanted name :
  process_backup_options environ directory_exists (mkState args (st_log st))
  = (Return out, st1) ->
  out !! "project_dir" = Some (VPath p) ->
  out !! "compose_files" = Some files ->
  from_env_file (PurePath.to_string p) = Return environment ->
  find (PurePath.to_string p) files environment = Return details ->
  load details = Return config ->
  args !! "services" = Some given ->
  py_set given = Return wanted ->
  name ∈ wanted ->
  name ∉ service_names config ->
  backup environ directory_exists create_dump dict_str args st
  = (Raise (SystemExit 1),
     mkState out
       (st_log st1 ++
        [(ERROR,
          "Unknown services: " ++
          Str.join ", "
            (set_iter (wanted ∖ list_to_set (service_names config))))])).
Proof.
  intros Hrun Hdir Hfiles Henv Hfind Hload Hgiven Hset Hin Hout.
  destruct (normalised_for_loader _ _ _ _ _ Hrun Hgiven)
    as (Hopts & Hsvc & _).
  unfold backup, copy_vars. unfold bind at 1. rewrite (bind_run _ _ _ _ _ Hrun).
  erewrite bind_raise; [reflexivity |].
  erewrite (get_compose_context_run st1 (VPath p));
    rewrite ?Hopts; try eassumption.
  rewrite bool_decide_eq_false_2; [reflexivity |].
  intros Hempty.
  assert (Hname : name ∈ (∅ : gset string)).
  { rewrite <- Hempty. apply elem_of_difference. split; [exact Hin |].
    now rewrite elem_of_list_to_set. }
  now apply not_elem_of_empty in Hname.
Qed.


(** X19.  [main] has three ways to go, whatever the argument strings: the
    parser exits (help, version, usage error) and so does [main]; no
    command was given, the namespace is empty and reading
    [args.verbose] raises [AttributeError]; or the command is [backup],
    the log handler is set up with [args.verbose] and [backup] is
    called.  No other function value is ever called. *)
Theorem main_dispatch argv st :
  match parse_cli_args getcwd argv with
  | Raise e =>
      main environ directory_exists getcwd create_dump setup_loghandler
        dict_str call_other argv st
      = (Raise e, st)
  | Return args =>
      (args = ∅ /\
       main environ directory_exists getcwd create_dump setup_loghandler
         dict_str call_other argv st
       = (Raise (AttributeError "verbose"), st)) \/
      (exists verbose,
         args !! "verbose" = Some verbose /\
         args !! "action" = Some (VFunction "backup") /\
         main environ directory_exists getcwd create_dump setup_loghandler
           dict_str call_other argv st
         = bind (setup_loghandler verbose)
             (fun _ => backup environ directory_exists create_dump dict_str args)
             st)
  end.
Proof.
  unfold main.
  destruct (parse_cli_args getcwd argv) as [args | e] eqn:Hparse;
    [| reflexivity].
  destruct (parse_cli_args_cases getcwd argv args Hparse)
    as [-> | [Haction Hkeys]].
  - left. split; reflexivity.
  - right.
    assert (Hverbose : is_Some (args !! "verbose")).
    { rewrite Forall_forall in Hkeys. apply Hkeys.
      repeat first [apply list_elem_of_here | apply list_elem_of_further]. }
    destruct Hverbose as [verbose Hverbose].
    exists verbose. split; [exact Hverbose |]. split; [exact Haction |].
    unfold bind, lift, getattr. rewrite Hverbose.
    destruct (setup_loghandler verbose st) as [[[] | e] st1]; [| reflexivity].
    rewrite Haction. reflexivity.
Qed.

End InvokerFacts.

(** ** The further statements at sample inputs *)

Lemma folder_run :
  process_backup_options ∅ all_exist (mkState (vars folder_args) [])
  = (Return folder_out, mkState folder_out []).
Proof. by_evaluation. Qed.

Lemma dot_run :
  process_backup_options ∅ all_exist (mkState (vars dot_args) [])
  = (Return dot_out, mkState dot_out []).
Proof. by_evaluation. Qed.

Lemma cache_run :
  process_backup_options ∅ all_exist (mkState (vars cache_args) [])
  = (Return cache_out, mkState cache_out []).
Proof. by_evaluation. Qed.

Lemma other_entries_kept_witness :
  ("services" ∉ ["action"; "file"; "compose_files"; "project_dir";
                  "project_name"; "scopes"; "config"; "mounted"; "volumes";
                  "target"; "compression"; "target_type"]) /\
  folder_out !! "services" = Some (VList ["web"]).
Proof.
  assert (Hk : "services" ∉ ["action"; "file"; "compose_files"; "project_dir";
                              "project_name"; "scopes"; "config"; "mounted";
                              "volumes"; "target"; "compression"; "target_type"])
    by by_evaluation.
  split; [exact Hk |].
  exact (other_entries_kept ∅ all_exist _ _ _ "services" folder_run Hk).
Defined.

Lemma files_and_paths_witness :
  folder_out !! "compose_files" = vars folder_args !! "file" /\
  (exists d p,
     vars folder_args !! "project_dir" = Some d /\
     Path d = Return (VPath p) /\
     folder_out !! "project_dir" = Some (VPath p)) /\
  (exists t,
     vars folder_args !! "target" = Some t /\
     ((t = VNone /\ folder_out !! "target" = Some VNone) \/
      (exists p, Path t = Return (VPath p) /\
                 folder_out !! "target" = Some (VPath p)))).
Proof. exact (files_and_paths ∅ all_exist _ _ _ folder_run). Defined.

Lemma scopes_well_formed_witness :
  exists xs,
    folder_out !! "scopes" = Some (VTuple xs) /\
    xs <> [] /\ NoDup xs /\ sublist xs SCOPES.
Proof. exact (scopes_well_formed ∅ all_exist _ _ _ folder_run). Defined.

Lemma not_repeatable_witness :
  process_backup_options ∅ all_exist (mkState sample_out [])
  = (Raise (KeyError "action"), mkState sample_out []).
Proof. exact (not_repeatable ∅ all_exist _ _ _ sample_run). Defined.

Lemma project_dir_check_raises_witness :
  none_exists (VPath (PurePath.mk "/" ["srv"; "app"]))
  = (Raise (SystemExit 1), [(ERROR, "no such directory")]) /\
  process_backup_options ∅ none_exists sample_state
  = (Raise (SystemExit 1),
     mkState
       (<["project_dir" := VPath (PurePath.mk "/" ["srv"; "app"])]>
          (delete "file" (<["compose_files" := VNone]>
             (delete "action" (vars sample_args)))))
       ([] ++ [(ERROR, "no such directory")])).
Proof.
  split; [reflexivity |].
  exact (project_dir_check_raises ∅ none_exists sample_state
           (VFunction "backup") VNone (VStr "/srv/app/")
           (PurePath.mk "/" ["srv"; "app"]) (SystemExit 1)
           [(ERROR, "no such directory")]
           eq_refl eq_refl eq_refl eq_refl eq_refl).
Defined.

Lemma no_target_is_archive_witness :
  vars bare_args !! "target" = Some VNone /\
  vars bare_args !! "compression" = Some VNone /\
  bare_out !! "target" = Some VNone /\
  bare_out !! "target_type" = Some (VStr "archive") /\
  bare_out !! "compression" = Some (VStr "tar").
Proof.
  split; [reflexivity |]. split; [reflexivity |].
  exact (no_target_is_archive ∅ all_exist _ _ _ VNone bare_run
           eq_refl eq_refl (or_introl eq_refl)).
Defined.



Lemma compression_from_target_name_witness :
  PurePath.name (PurePath.of_string "/backups/app.tar.gz")
  = "app.tar" ++ "." ++ "gz" /\
  ("gz" ∈ COMPRESSIONS) /\
  sample_out !! "compression" = Some (VStr "gz") /\
  sample_out !! "target_type" = Some (VStr "archive").
Proof.
  assert (Hext : "gz" ∈ COMPRESSIONS) by by_evaluation.
  assert (Hstem : "app.tar" <> "") by discriminate.
  split; [reflexivity |]. split; [exact Hext |].
  exact (compression_from_target_name ∅ all_exist sample_state sample_out _
           (VStr "/backups/app.tar.gz")
           (PurePath.of_string "/backups/app.tar.gz") "app.tar" "gz"
           sample_run eq_refl eq_refl eq_refl eq_refl Hstem Hext).
Defined.

Lemma dot_name_is_a_folder_witness :
  PurePath.name (PurePath.of_string "/backups/.gz") = "." ++ "gz" /\
  dot_out !! "compression" = Some VNone /\
  dot_out !! "target_type" = Some (VStr "folder").
Proof.
  assert (Hext : "gz" ∈ COMPRESSIONS) by by_evaluation.
  split; [reflexivity |].
  exact (dot_name_is_a_folder ∅ all_exist (mkState (vars dot_args) []) dot_out _
           (VStr "/backups/.gz") (PurePath.of_string "/backups/.gz") "gz"
           dot_run eq_refl eq_refl eq_refl eq_refl Hext).
Defined.

Lemma load_error_propagates_witness :
  (forall msg, OtherError "YAMLError" <> ConfigurationError msg) /\
  @get_compose_context (fixed_compose (Raise (OtherError "YAMLError")))
    sample_interpreter (loader_state (VTuple []))
  = (Raise (OtherError "YAMLError"), loader_state (VTuple [])).
Proof.
  assert (Hother : forall msg, OtherError "YAMLError" <> ConfigurationError msg)
    by discriminate.
  split; [exact Hother |].
  exact (@load_error_propagates
           (fixed_compose (Raise (OtherError "YAMLError"))) sample_interpreter
           (loader_state (VTuple []))
           (VPath (PurePath.mk "/" ["srv"; "app"])) VNone tt VNone
           (OtherError "YAMLError")
           eq_refl eq_refl eq_refl eq_refl eq_refl Hother).
Defined.

Lemma find_error_propagates_witness :
  @get_compose_context lost_compose sample_interpreter (loader_state (VTuple []))
  = (Raise (ConfigurationError "no compose file"), loader_state (VTuple [])).
Proof.
  exact (@find_error_propagates lost_compose sample_interpreter
           (loader_state (VTuple []))
           (VPath (PurePath.mk "/" ["srv"; "app"])) VNone tt
           eq_refl eq_refl eq_refl
           (ConfigurationError "no compose file") eq_refl).
Defined.

Lemma empty_services_run :
  @get_compose_context (fixed_compose (Return sample_config)) sample_interpreter
    (loader_state (VTuple []))
  = (Return (sample_config, VNone, tt),
     mkState (<["services" := VTuple ["web"; "db"]]>
                (st_options (loader_state (VTuple [])))) []).
Proof.
  exact (@get_compose_context_run (fixed_compose (Return sample_config))
           sample_interpreter (loader_state (VTuple []))
           (VPath (PurePath.mk "/" ["srv"; "app"])) VNone tt VNone
           sample_config (VTuple []) ∅
           eq_refl eq_refl eq_refl eq_refl eq_refl eq_refl eq_refl).
Qed.

Lemma returned_services_known_witness :
  @load (fixed_compose (Return sample_config)) VNone = Return sample_config /\
  (exists asked wanted,
     <["services" := VTuple ["web"; "db"]]>
       (st_options (loader_state (VTuple []))) !! "services" = Some asked /\
     py_set asked = Return wanted /\
     wanted ⊆ list_to_set (service_names sample_config) /\
     (truthy asked = true \/ service_names sample_config = [])) /\
  (forall k, k <> "services" ->
     <["services" := VTuple ["web"; "db"]]>
       (st_options (loader_state (VTuple []))) !! k
     = st_options (loader_state (VTuple [])) !! k) /\
  @nil log_record = [].
Proof.
  exact (@returned_services_known (fixed_compose (Return sample_config))
           sample_interpreter _ _ _ _ _ empty_services_run).
Defined.

Lemma backup_namespace_complete_witness :
  exists ns,
    @parse_cli_args exact_matcher "/srv/app" ["backup"; "--volumes"] = Return ns /\
    ns !! "action" = Some (VFunction "backup") /\
    Forall (fun k => is_Some (ns !! k))
      ["action"; "config"; "compression"; "file"; "mounted"; "no_pause";
       "project_dir"; "project_name"; "resolve_symlinks"; "target";
       "verbose"; "volumes"; "services"].
Proof.
  eexists. split; [reflexivity |]. split; [reflexivity |].
  apply (@backup_namespace_complete exact_matcher "/srv/app"
           ["backup"; "--volumes"]); reflexivity.
Defined.

Lemma unknown_command_refused_witness :
  "restore" <> "backup" /\
  @parse_cli_args exact_matcher "/srv/app" ["restore"; "--volumes"]
  = Raise (SystemExit 2).
Proof.
  assert (Hcmd : "restore" <> "backup") by discriminate.
  split; [exact Hcmd |].
  exact (@unknown_command_refused exact_matcher "/srv/app"
           ["restore"; "--volumes"] [] "restore" ["--volumes"] eq_refl Hcmd).
Defined.

Lemma backup_defaults_witness :
  exists ns,
    @parse_cli_args exact_matcher "/srv/app" ["backup"] = Return ns /\
    ns !! "project_dir" = Some (VStr "/srv/app") /\
    ns !! "services" = Some (VTuple []).
Proof.
  eexists. split.
  - eapply (@backup_defaults exact_matcher "/srv/app" ["backup"] [] [] _ None);
      reflexivity.
  - split; reflexivity.
Defined.

Lemma backup_unknown_service_exits_witness :
  ("cache" ∈ (list_to_set ["web"; "cache"] : gset string)) /\
  ("cache" ∉ service_names sample_config) /\
  @backup (fixed_compose (Return sample_config)) sample_interpreter
    ∅ all_exist noting_dump size_str (vars cache_args) (mkState ∅ [])
  = (Raise (SystemExit 1),
     mkState cache_out [(ERROR, "Unknown services: cache")]).
Proof.
  assert (Hin : "cache" ∈ (list_to_set ["web"; "cache"] : gset string))
    by by_evaluation.
  assert (Hout : "cache" ∉ service_names sample_config) by by_evaluation.
  split; [exact Hin |]. split; [exact Hout |].
  exact (@backup_unknown_service_exits
           (fixed_compose (Return sample_config)) sample_interpreter
           ∅ all_exist noting_dump size_str (vars cache_args) (mkState ∅ [])
           cache_out (mkState cache_out [])
           (PurePath.mk "/" ["srv"; "app"]) VNone tt VNone sample_config
           (VList ["web"; "cache"]) (list_to_set ["web"; "cache"]) "cache"
           cache_run eq_refl eq_refl eq_refl eq_refl eq_refl eq_refl eq_refl
           Hin Hout).
Defined.

